(** * EventDock webhook health action: the classifier, the report renderer,
      the pull-request comment publisher and the orchestrating [run]

    A shallow embedding of [src/index.js].

    - Numbers are IEEE-754 doubles, written as the Standard Library's
      [spec_float] and always read through their exact rational value, as
      ECMAScript's [Number::lessThan], [Number::equal] and [toFixed] specify.
    - A property of the parsed response is absent, [null] or a value of the
      type the API documents ([opt]); calling a method on an absent or null
      property throws the [TypeError] JavaScript throws.
    - Exceptions are an error result; the effects of the action (outputs,
      failure mark, log, job summary, comments of the pull request) are the
      fields of an explicit [state], threaded by a state-and-error monad.
    - What the action calls but does not define is a parameter: the host's
      number printing ([Host]), the network behind [fetch] ([exchange]: when
      a request settles and how, and how long its body takes to read), the
      workflow context and the GitHub comment API reached through octokit
      ([env]).  [Node] gives one concrete host, on which the scenarios of the
      specification are run. *)

From Stdlib Require Import ZArith QArith Qround Qabs Ascii String List Lia.
From Stdlib Require Import Floats.SpecFloat.
From stdpp Require Import base option list gmap strings pretty.

Open Scope string_scope.

(** ** JavaScript values read from the parsed response *)

(** A property of a parsed JSON object: absent ([undefined]), [null], or a
    value of the expected type. *)
Inductive opt (A : Type) : Type :=
  | undefined
  | null
  | val (a : A).
Arguments undefined {A}.
Arguments null {A}.
Arguments val {A} a.

Abbreviation number := spec_float.

Definition NaN : number := S754_nan.

Module Number.

(** The real number denoted by a finite double [(-1)^s * m * 2^e]. *)
Definition finite_value (s : bool) (m : positive) (e : Z) : Q :=
  let a := match e with
           | Z0 => inject_Z (Zpos m)
           | Zpos p => inject_Z (Zpos m * 2 ^ Zpos p)
           | Zneg p => Zpos m # (2 ^ p)
           end in
  if s then Qopp a else a.

(** The mathematical value of a zero or finite number (0 elsewhere, where
    it is never consulted). *)
Definition real (x : number) : Q :=
  match x with
  | S754_finite s m e => finite_value s m e
  | _ => 0
  end.

Definition Qltb (a b : Q) : bool :=
  match Qcompare a b with Lt => true | _ => false end.

Definition Qeqb (a b : Q) : bool :=
  match Qcompare a b with Eq => true | _ => false end.

(** ECMAScript [Number::lessThan]: [None] is the spec's [undefined]. *)
Definition lessThan (x y : number) : option bool :=
  match x, y with
  | S754_nan, _ => None
  | _, S754_nan => None
  | S754_infinity false, _ => Some false
  | _, S754_infinity false => Some true
  | _, S754_infinity true => Some false
  | S754_infinity true, _ => Some true
  | _, _ => Some (Qltb (real x) (real y))
  end.

(** ECMAScript [Number::equal]. *)
Definition equal (x y : number) : bool :=
  match x, y with
  | S754_nan, _ => false
  | _, S754_nan => false
  | S754_infinity a, S754_infinity b => Bool.eqb a b
  | S754_infinity _, _ => false
  | _, S754_infinity _ => false
  | _, _ => Qeqb (real x) (real y)
  end.

(** The integer [n] as a number, written exactly (mantissa [|n|], exponent 0). *)
Definition of_Z (n : Z) : number :=
  match n with
  | Z0 => S754_zero false
  | Zpos p => S754_finite false p 0
  | Zneg p => S754_finite true p 0
  end.

End Number.

(** [ToNumber] on the values a numeric property can hold. *)
Definition ToNumber (v : opt number) : number :=
  match v with
  | undefined => NaN
  | null => S754_zero false
  | val x => x
  end.

(** [a >= b]: false when [IsLessThan(a, b)] is true or undefined. *)
Definition js_ge (a b : opt number) : bool :=
  match Number.lessThan (ToNumber a) (ToNumber b) with
  | Some false => true
  | _ => false
  end.

(** [a < b]: true only when [IsLessThan(a, b)] is true. *)
Definition js_lt (a b : opt number) : bool :=
  match Number.lessThan (ToNumber a) (ToNumber b) with
  | Some true => true
  | _ => false
  end.

(** [a > b] is [IsLessThan(b, a)]. *)
Definition js_gt (a b : opt number) : bool := js_lt b a.

(** [a === b] against a number: values of another type are never equal. *)
Definition js_strict_eq (a : opt number) (b : number) : bool :=
  match a with
  | val x => Number.equal x b
  | _ => false
  end.

Definition num (n : Z) : opt number := val (Number.of_Z n).

(** ** The health classifier *)

Definition determineStatus (successRate dlqCount : opt number) : string :=
  if js_ge successRate (num 99) && js_strict_eq dlqCount (Number.of_Z 0) then
    "healthy"
  else if js_ge successRate (num 90) then
    "degraded"
  else
    "unhealthy".

Definition getStatusEmoji (status : string) : string :=
  if String.eqb status "healthy" then ":white_check_mark:"
  else if String.eqb status "degraded" then ":warning:"
  else if String.eqb status "unhealthy" then ":x:"
  else ":question:".

(** ** Strings *)

Definition nl : string := String (ascii_of_nat 10) "".

(** [String.prototype.includes]: does [needle] occur in [s]? *)
Fixpoint includes (needle s : string) : bool :=
  String.prefix needle s ||
  match s with
  | EmptyString => false
  | String _ s' => includes needle s'
  end.

Definition upper_ascii (c : ascii) : ascii :=
  let n := nat_of_ascii c in
  if (97 <=? n)%nat && (n <=? 122)%nat then ascii_of_nat (n - 32) else c.

(** [String.prototype.toUpperCase], on the ASCII strings the action applies
    it to (the three status words). *)
Fixpoint toUpperCase (s : string) : string :=
  match s with
  | EmptyString => EmptyString
  | String c s' => String (upper_ascii c) (toUpperCase s')
  end.

Fixpoint repeat_string (s : string) (n : nat) : string :=
  match n with
  | O => ""
  | S n' => s ++ repeat_string s n'
  end.

Fixpoint string_take (n : nat) (s : string) : string :=
  match n, s with
  | S n', String c s' => String c (string_take n' s')
  | _, _ => ""
  end.

Fixpoint string_drop (n : nat) (s : string) : string :=
  match n, s with
  | S n', String _ s' => string_drop n' s'
  | _, _ => s
  end.

(** The UTF-8 encodings of ECMAScript's [WhiteSpace] and [LineTerminator]
    code points, which [trim] and [parseFloat] skip. *)
Definition bytes (l : list nat) : string :=
  fold_right (fun n s => String (ascii_of_nat n) s) "" l.

Definition whitespace : list string :=
  map bytes
    [ [9]; [10]; [11]; [12]; [13]; [32]; [194; 160]; [225; 154; 128];
      [226; 128; 128]; [226; 128; 129]; [226; 128; 130]; [226; 128; 131];
      [226; 128; 132]; [226; 128; 133]; [226; 128; 134]; [226; 128; 135];
      [226; 128; 136]; [226; 128; 137]; [226; 128; 138]; [226; 128; 168];
      [226; 128; 169]; [226; 128; 175]; [226; 129; 159]; [227; 128; 128];
      [239; 187; 191] ]%nat.

Definition strip_one (s : string) : option string :=
  match filter (fun w => Is_true (String.prefix w s)) whitespace with
  | w :: _ => Some (string_drop (String.length w) s)
  | [] => None
  end.

Fixpoint trimStart_fuel (fuel : nat) (s : string) : string :=
  match fuel with
  | O => s
  | S fuel' =>
      match strip_one s with
      | Some s' => trimStart_fuel fuel' s'
      | None => s
      end
  end.

Definition trimStart (s : string) : string := trimStart_fuel (String.length s) s.

Definition ends_with (w s : string) : bool :=
  (String.length w <=? String.length s)%nat &&
  String.eqb (string_drop (String.length s - String.length w) s) w.

Definition strip_one_end (s : string) : option string :=
  match filter (fun w => Is_true (ends_with w s)) whitespace with
  | w :: _ => Some (string_take (String.length s - String.length w) s)
  | [] => None
  end.

Fixpoint trimEnd_fuel (fuel : nat) (s : string) : string :=
  match fuel with
  | O => s
  | S fuel' =>
      match strip_one_end s with
      | Some s' => trimEnd_fuel fuel' s'
      | None => s
      end
  end.

Definition trim (s : string) : string :=
  let s := trimStart s in trimEnd_fuel (String.length s) s.

(** ** Number formatting *)

(** The conversions the JavaScript host supplies and the action calls but
    does not define: [Number::toString] (radix 10, used by template
    literals and by [toFixed] beyond 1e21) and the locale-dependent
    [Number.prototype.toLocaleString]. *)
Class Host := {
  Number_toString : number -> string;
  Number_toLocaleString : number -> string
}.

Definition Qabs_neg (q : Q) : bool * Q :=
  if Number.Qltb q 0 then (true, Qopp q) else (false, q).

(** The digits of [n / 10^f] with [f] fraction digits, as [toFixed] steps
    11.b to 11.c lay them out. *)
Definition fixed_digits (n : Z) (f : nat) : string :=
  let m := pretty n in
  if Nat.eqb f 0 then m
  else
    let k := String.length m in
    let m := if (k <=? f)%nat then repeat_string "0" (f + 1 - k) ++ m else m in
    let k := String.length m in
    string_take (k - f) m ++ "." ++ string_drop (k - f) m.

(** [Number.prototype.toFixed(fractionDigits)] on a number. *)
Definition toFixed `{Host} (x : number) (f : nat) : string :=
  match x with
  | S754_nan | S754_infinity _ => Number_toString x
  | _ =>
      let '(neg, a) := Qabs_neg (Number.real x) in
      let s := if neg then "-" else "" in
      if Number.Qltb a (inject_Z (10 ^ 21)) then
        let n := Qfloor (a * inject_Z (10 ^ Z.of_nat f) + (1 # 2)) in
        s ++ fixed_digits n f
      else s ++ Number_toString (SFabs x)
  end.

(** *** [parseFloat] *)

Definition digit_of (c : ascii) : option N :=
  let n := N_of_ascii c in
  if (48 <=? n)%N && (n <=? 57)%N then Some (n - 48)%N else None.

(** Reads the longest run of decimal digits: their value, how many there
    were, and the rest of the string. *)
Fixpoint read_digits (s : string) (acc : N) (count : nat) : N * nat * string :=
  match s with
  | String c s' =>
      match digit_of c with
      | Some d => read_digits s' (10 * acc + d)%N (S count)
      | None => (acc, count, s)
      end
  | EmptyString => (acc, count, s)
  end.

Definition read_sign (s : string) : bool * string :=
  match s with
  | String "-" s' => (true, s')
  | String "+" s' => (false, s')
  | _ => (false, s)
  end.

(** The optional [ExponentPart]: its value, 0 when there is none. *)
Definition read_exponent (s : string) : Z :=
  match s with
  | String c s' =>
      if Ascii.eqb c "e" || Ascii.eqb c "E" then
        let '(neg, s'') := read_sign s' in
        let '(v, count, _) := read_digits s'' 0%N 0%nat in
        if Nat.eqb count 0 then 0%Z
        else if neg then (- Z.of_N v)%Z else Z.of_N v
      else 0%Z
  | EmptyString => 0%Z
  end.

(** The double nearest to [(-1)^neg * m * 10^e], ties to even. *)
Definition round_decimal (neg : bool) (m : N) (e : Z) : number :=
  match m with
  | N0 => S754_zero neg
  | Npos p =>
      match e with
      | Zneg q =>
          SFdiv 53 1024 (S754_finite neg p 0) (S754_finite false (10 ^ q) 0)
      | _ => binary_normalize 53 1024 (if neg then - (Zpos p * 10 ^ e) else Zpos p * 10 ^ e)%Z 0 false
      end
  end.

(** [parseFloat]: skips leading white space, then converts the longest
    prefix that is a [StrDecimalLiteral]; [NaN] when there is none. *)
Definition parseFloat (input : string) : number :=
  let '(neg, s) := read_sign (trimStart input) in
  if String.prefix "Infinity" s then S754_infinity neg
  else
    let '(ip, ni, s1) := read_digits s 0%N 0%nat in
    let '(fp, nf, s2) :=
      match s1 with
      | String "." s' => read_digits s' 0%N 0%nat
      | _ => (0%N, 0%nat, s1)
      end in
    if Nat.eqb ni 0 && Nat.eqb nf 0 then NaN
    else
      let m := (ip * 10 ^ N.of_nat nf + fp)%N in
      round_decimal neg m (read_exponent s2 - Z.of_nat nf).

(** ** Exceptions *)

(** A thrown JavaScript error object: its [name] and its [message]. *)
Record error := { name : string; message : string }.

Inductive result (A : Type) : Type :=
  | Ok (a : A)
  | Throw (e : error).
Arguments Ok {A} a.
Arguments Throw {A} e.

#[export] Instance result_ret : MRet result := fun A a => Ok a.
#[export] Instance result_bind : MBind result := fun A B f m =>
  match m with
  | Ok a => f a
  | Throw e => Throw e
  end.

Definition TypeError (msg : string) : error := {| name := "TypeError"; message := msg |}.

(** [new Error(msg)]. *)
Definition Error (msg : string) : error := {| name := "Error"; message := msg |}.

(** [v.meth(...)]: reading a property of [undefined] or [null] throws (the
    message is V8's); otherwise the method [f] of the value runs. *)
Definition call {A B : Type} (v : opt A) (meth : string) (f : A -> B) : result B :=
  match v with
  | undefined =>
      Throw (TypeError ("Cannot read properties of undefined (reading '" ++ meth ++ "')"))
  | null =>
      Throw (TypeError ("Cannot read properties of null (reading '" ++ meth ++ "')"))
  | val a => Ok (f a)
  end.

(** [v?.meth(...)]: short-circuits to [undefined] on [undefined] and [null]. *)
Definition optional_call {A B : Type} (v : opt A) (f : A -> B) : opt B :=
  match v with
  | val a => val (f a)
  | _ => undefined
  end.

(** [v || d] for a string-valued [v]: the empty string is falsy too. *)
Definition or_else (v : opt string) (d : string) : string :=
  match v with
  | val s => if String.eqb s "" then d else s
  | _ => d
  end.

(** [ToString], as a template literal applies it. *)
Definition show {A : Type} (f : A -> string) (v : opt A) : string :=
  match v with
  | undefined => "undefined"
  | null => "null"
  | val a => f a
  end.

Definition show_string : opt string -> string := show (fun s => s).

(** ** The statistics snapshot *)

Record EndpointStat := {
  ep_name : opt string;
  ep_provider : opt string;
  ep_status : opt string;
  ep_success_rate : opt number
}.

Record HealthSnapshot := {
  total_events : opt number;
  delivered_events : opt number;
  failed_events : opt number;
  pending_events : opt number;
  dlq_count : opt number;
  success_rate : opt number;
  endpoints_count : opt number;
  endpoints : opt (list EndpointStat)
}.

(** [ep.status === 'active'] *)
Definition is_active (st : opt string) : bool :=
  match st with
  | val s => String.eqb s "active"
  | _ => false
  end.

(** [stats.endpoints && stats.endpoints.length > 0] *)
Definition has_endpoints (eps : opt (list EndpointStat)) : bool :=
  match eps with
  | val l => js_gt (num (Z.of_nat (length l))) (num 0)
  | _ => false
  end.

Definition marker : string := "EventDock Webhook Health Report".

Section Renderer.
Context `{Host}.

(** One row of the endpoint table (the body of the [for] loop). *)
Definition endpoint_row (ep : EndpointStat) : string :=
  let epEmoji := if is_active (ep_status ep) then ":green_circle:" else ":yellow_circle:" in
  "| " ++ show_string (ep_name ep) ++ " | " ++ show_string (ep_provider ep) ++ " | " ++
  epEmoji ++ " " ++ show_string (ep_status ep) ++ " | " ++
  or_else (optional_call (ep_success_rate ep) (fun x => toFixed x 2)) "N/A" ++ "% |" ++ nl.

Definition generateReport (stats : HealthSnapshot) : result string :=
  let status := determineStatus (success_rate stats) (dlq_count stats) in
  let emoji := getStatusEmoji status in
  let report := "## " ++ emoji ++ " EventDock Webhook Health Report" ++ nl ++ nl in
  let report := report ++ "**Status:** " ++ toUpperCase status ++ nl ++ nl in
  let report := report ++ "### Last 24 Hours" ++ nl ++ nl in
  let report := report ++ "| Metric | Value |" ++ nl in
  let report := report ++ "|--------|-------|" ++ nl in
  total ← call (total_events stats) "toLocaleString" Number_toLocaleString;
  let report := report ++ "| Total Events | " ++ total ++ " |" ++ nl in
  delivered ← call (delivered_events stats) "toLocaleString" Number_toLocaleString;
  let report := report ++ "| Delivered | " ++ delivered ++ " |" ++ nl in
  failed ← call (failed_events stats) "toLocaleString" Number_toLocaleString;
  let report := report ++ "| Failed | " ++ failed ++ " |" ++ nl in
  rate ← call (success_rate stats) "toFixed" (fun x => toFixed x 2);
  let report := report ++ "| Success Rate | " ++ rate ++ "% |" ++ nl in
  dlq ← call (dlq_count stats) "toLocaleString" Number_toLocaleString;
  let report := report ++ "| In DLQ | " ++ dlq ++ " |" ++ nl in
  let report := report ++ "| Endpoints | " ++ show Number_toString (endpoints_count stats) ++ " |" ++ nl ++ nl in
  let report :=
    if has_endpoints (endpoints stats) then
      let report := report ++ "### Endpoints" ++ nl ++ nl in
      let report := report ++ "| Name | Provider | Status | Success Rate |" ++ nl in
      let report := report ++ "|------|----------|--------|-------------|" ++ nl in
      let report :=
        fold_left (fun report ep => report ++ endpoint_row ep)
                  (match endpoints stats with val l => l | _ => [] end) report in
      report ++ nl
    else report in
  let report := report ++ "---" ++ nl in
  let report := report ++
    "*Powered by [EventDock](https://eventdock.app) - Reliable Webhook Infrastructure*" ++ nl in
  mret report.

End Renderer.

(** ** The HTTP client *)

Record request := {
  url : string;
  headers : list (string * string)
}.

(** A received response: its status code, how many milliseconds reading
    its body takes once the response has arrived, and what reading it as
    text and as JSON gives.  The read ends, however late (a run whose read
    never ends leaves no final state to speak of), and a body that parses is
    a JSON object. *)
Record Response := {
  status : Z;
  body_takes : N;
  text : result string;
  json : result HealthSnapshot
}.

(** [response.ok]: the status is in the range 200 to 299. *)
Definition ok (r : Response) : bool := (200 <=? status r)%Z && (status r <=? 299)%Z.

(** What the network does with a request of [fetch] nobody aborts: after
    how many milliseconds the [fetch] promise settles ([None]: never), and
    with what. *)
Record exchange := {
  settles_at : option N;
  outcome : result Response
}.

(** The rejection of a [fetch] whose signal is aborted (Node's wording). *)
Definition AbortError : error :=
  {| name := "AbortError"; message := "This operation was aborted" |}.

Inductive event := TimerFires | FetchSettles.

(** The event the pending [await] sees first: the timer armed for
    [timeout] ms or the settling of the fetch (a tie goes to the timer). *)
Definition first_event (timeout : N) (settle : option N) : event :=
  match settle with
  | Some t => if (t <? timeout)%N then FetchSettles else TimerFires
  | None => TimerFires
  end.

(** What a call of [fetchWithTimeout] leaves behind: the awaited result,
    whether the controller aborted the in-flight request, and whether the
    [finally] block cleared the timer. *)
Record fetch_trace := {
  fetched : result Response;
  aborted : bool;
  timer_cleared : bool
}.

(** [await fetch(url, { ...options, signal })] under a timer armed for
    [timeout] ms: when the timer fires first its callback calls
    [controller.abort()], which cancels the request and rejects the fetch. *)
Definition await_fetch (x : exchange) (timeout : N) : result Response * bool :=
  match first_event timeout (settles_at x) with
  | TimerFires => (Throw AbortError, true)
  | FetchSettles => (outcome x, false)
  end.

Definition fetchWithTimeout_trace (network : request -> exchange)
    (url : string) (options : list (string * string)) (timeout : N) : fetch_trace :=
  let '(response, aborted) :=
    await_fetch (network {| url := url; headers := options |}) timeout in
  (* finally: clearTimeout(timeoutId) *)
  {| fetched := response; aborted := aborted; timer_cleared := true |}.

Definition default_timeout : N := 30000.

Definition fetchWithTimeout (network : request -> exchange)
    (url : string) (options : list (string * string)) : result Response :=
  fetched (fetchWithTimeout_trace network url options default_timeout).

Definition getHealthStats (network : request -> exchange)
    (apiUrl apiKey endpointId : string) : result HealthSnapshot :=
  let headers :=
    [ ("Authorization", "Bearer " ++ apiKey);
      ("Content-Type", "application/json") ] in
  let healthUrl :=
    if negb (String.eqb endpointId "")
    then apiUrl ++ "/v1/health?endpoint_id=" ++ endpointId
    else apiUrl ++ "/v1/health" in
  response ← fetchWithTimeout network healthUrl headers;
  if negb (ok response) then
    text ← text response;
    Throw (Error ("API request failed: " ++ pretty (status response) ++ " - " ++ text))
  else json response.



(** ** The action's world *)

Inductive level := LDebug | LInfo | LWarning | LError.

Inductive out_value :=
  | out_string (s : string)
  | out_number (v : opt number).

(** A comment of the pull request, as the GitHub API lists it. *)
Record comment := { id : Z; body : string }.

(** Everything the action writes: the outputs, the failure mark of
    [core.setFailed], the log, the comments of the pull request and the job
    summary. *)
Record state := {
  outputs : gmap string out_value;
  failure : option string;
  log : list (level * string);
  comments : list comment;
  summary : option (list (string * string))
}.

(** Everything the action reads: its inputs, the network behind [fetch]
    (the health API), the workflow context, and whether the calls to GitHub,
    which go through octokit and not through [fetch], and the job summary
    work. *)
Record env := {
  inputs : gmap string string;
  network : request -> exchange;
  pull_request : option Z;
  listComments_error : option error;
  updateComment_error : option error;
  createComment_error : option error;
  summary_error : option error
}.

Definition action (A : Type) : Type := state -> result A * state.

#[export] Instance action_ret : MRet action := fun A a s => (Ok a, s).
#[export] Instance action_bind : MBind action := fun A B f m s =>
  match m s with
  | (Ok a, s') => f a s'
  | (Throw e, s') => (Throw e, s')
  end.

(** An awaited or called computation that does not touch the state. *)
Definition lift {A : Type} (r : result A) : action A := fun s => (r, s).

(** [try { body } catch (error) { handler }]: what [body] wrote before it
    threw stays written. *)
Definition try_catch {A : Type} (body : action A) (handler : error -> action A) : action A :=
  fun s =>
    match body s with
    | (Ok a, s') => (Ok a, s')
    | (Throw e, s') => handler e s'
    end.

Definition write_log (l : level) (msg : string) : action unit := fun s =>
  (Ok tt, {| outputs := outputs s; failure := failure s; log := log s ++ [(l, msg)];
             comments := comments s; summary := summary s |}).

Definition debug : string -> action unit := write_log LDebug.
Definition info : string -> action unit := write_log LInfo.
Definition warning : string -> action unit := write_log LWarning.

Definition setOutput (key : string) (v : out_value) : action unit := fun s =>
  (Ok tt, {| outputs := <[key := v]> (outputs s); failure := failure s; log := log s;
             comments := comments s; summary := summary s |}).

(** [core.setFailed]: marks the run failed and logs the message as an error. *)
Definition setFailed (msg : string) : action unit := fun s =>
  (Ok tt, {| outputs := outputs s; failure := Some msg; log := log s ++ [(LError, msg)];
             comments := comments s; summary := summary s |}).

Definition set_comments (cs : list comment) : action unit := fun s =>
  (Ok tt, {| outputs := outputs s; failure := failure s; log := log s;
             comments := cs; summary := summary s |}).

Definition write_summary (rows : list (string * string)) : action unit := fun s =>
  (Ok tt, {| outputs := outputs s; failure := failure s; log := log s;
             comments := comments s; summary := Some rows |}).

(** [core.getInput]: the input trimmed, the empty string when it is not
    given; a required input that is empty throws. *)
Definition getInput (e : env) (key : string) (required : bool) : result string :=
  let v := default "" (inputs e !! key) in
  if required && String.eqb v "" then
    Throw (Error ("Input required and not supplied: " ++ key))
  else Ok (trim v).

(** ** The GitHub comment API

    The pull request keeps its comments in creation order.
    [listComments] is called once, without [per_page] or [page] (lines 105
    to 109): it returns the first page of the listing, GitHub's default of
    30 comments.  [createComment] appends a comment under an id no earlier
    comment has. *)

Definition api_call (failing : option error) : action unit :=
  match failing with
  | Some err => lift (Throw err)
  | None => mret tt
  end.

Definition get_comments : action (list comment) := fun s => (Ok (comments s), s).

(** The page size of a listing that does not ask for one. *)
Definition per_page : nat := 30.

Definition first_page (cs : list comment) : list comment := take per_page cs.

Definition listComments (e : env) : action (list comment) :=
  _ ← api_call (listComments_error e);
  cs ← get_comments;
  mret (first_page cs).

Definition update_body (comment_id : Z) (new_body : string) (c : comment) : comment :=
  if (id c =? comment_id)%Z then {| id := id c; body := new_body |} else c.

Definition updateComment (e : env) (comment_id : Z) (new_body : string) : action unit :=
  _ ← api_call (updateComment_error e);
  cs ← get_comments;
  set_comments (map (update_body comment_id new_body) cs).

Definition fresh_id (cs : list comment) : Z :=
  1 + fold_right Z.max 0%Z (map id cs).

Definition createComment (e : env) (new_body : string) : action unit :=
  _ ← api_call (createComment_error e);
  cs ← get_comments;
  set_comments (cs ++ [ {| id := fresh_id cs; body := new_body |} ]).

(** [comments.find(comment => comment.body.includes(marker))] *)
Definition find_botComment (cs : list comment) : option comment :=
  List.find (fun c => includes marker (body c)) cs.

Definition postPRComment (e : env) (token report : string) : action unit :=
  match pull_request e with
  | None => info "Not a pull request, skipping comment"
  | Some prNumber =>
      cs ← listComments e;
      match find_botComment cs with
      | Some botComment =>
          _ ← updateComment e (id botComment) report;
          info ("Updated existing PR comment #" ++ pretty (id botComment))
      | None =>
          _ ← createComment e report;
          info ("Created new PR comment on PR #" ++ pretty prNumber)
      end
  end.

(** ** The orchestrator *)

Section Run.
Context `{Host}.

(** The job summary block: building the table calls [toString] on the
    statistics, writing it needs the runner's summary file. *)
Definition write_job_summary (e : env) (status : string) (stats : HealthSnapshot) : action unit :=
  rate ← lift (call (success_rate stats) "toFixed" (fun x => toFixed x 2));
  total ← lift (call (total_events stats) "toString" Number_toString);
  delivered ← lift (call (delivered_events stats) "toString" Number_toString);
  failed ← lift (call (failed_events stats) "toString" Number_toString);
  dlq ← lift (call (dlq_count stats) "toString" Number_toString);
  count ← lift (call (endpoints_count stats) "toString" Number_toString);
  _ ← api_call (summary_error e);
  write_summary
    [ ("Metric", "Value");
      ("Status", toUpperCase status);
      ("Success Rate", rate ++ "%");
      ("Total Events (24h)", total);
      ("Delivered", delivered);
      ("Failed", failed);
      ("In DLQ", dlq);
      ("Endpoints", count) ].

(** The body of the [try] block of [run]. *)
Definition run_body (e : env) : action unit :=
  (* Get inputs *)
  apiKey ← lift (getInput e "api-key" true);
  endpointId ← lift (getInput e "endpoint-id" false);
  apiUrl ← lift (getInput e "api-url" false);
  let apiUrl := if String.eqb apiUrl "" then "https://api.eventdock.app" else apiUrl in
  failOnUnhealthy ← lift (getInput e "fail-on-unhealthy" false);
  let failOnUnhealthy := String.eqb failOnUnhealthy "true" in
  failThreshold ← lift (getInput e "fail-threshold" false);
  let failThreshold := parseFloat (if String.eqb failThreshold "" then "90" else failThreshold) in
  postComment ← lift (getInput e "post-comment" false);
  let postComment := String.eqb postComment "true" in
  githubToken ← lift (getInput e "github-token" false);
  _ ← info ("Checking webhook health at " ++ apiUrl ++ "...");
  _ ← (if negb (String.eqb endpointId "")
       then info ("Checking specific endpoint: " ++ endpointId)
       else mret tt);
  (* Fetch health stats *)
  stats ← lift (getHealthStats (network e) apiUrl apiKey endpointId);
  (* Determine overall status *)
  let status := determineStatus (success_rate stats) (dlq_count stats) in
  _ ← info ("Status: " ++ status);
  rate ← lift (call (success_rate stats) "toFixed" (fun x => toFixed x 2));
  _ ← info ("Success Rate: " ++ rate ++ "%");
  _ ← info ("Total Events (24h): " ++ show Number_toString (total_events stats));
  _ ← info ("DLQ Count: " ++ show Number_toString (dlq_count stats));
  (* Set outputs *)
  _ ← setOutput "status" (out_string status);
  rate ← lift (call (success_rate stats) "toFixed" (fun x => toFixed x 2));
  _ ← setOutput "success-rate" (out_string rate);
  _ ← setOutput "total-events" (out_number (total_events stats));
  _ ← setOutput "delivered-events" (out_number (delivered_events stats));
  _ ← setOutput "failed-events" (out_number (failed_events stats));
  _ ← setOutput "dlq-count" (out_number (dlq_count stats));
  _ ← setOutput "endpoints-checked" (out_number (endpoints_count stats));
  (* Generate report *)
  report ← lift (generateReport stats);
  _ ← setOutput "report" (out_string report);
  (* Post PR comment if requested *)
  _ ← (if postComment then
         if String.eqb githubToken "" then
           warning "github-token is required to post PR comments"
         else postPRComment e githubToken report
       else mret tt);
  (* Log summary (only in GitHub Actions environment) *)
  _ ← try_catch (write_job_summary e status stats)
                (fun _ => debug "Job summary not available");
  (* Fail if unhealthy and configured to do so *)
  if failOnUnhealthy && js_lt (success_rate stats) (val failThreshold) then
    rate ← lift (call (success_rate stats) "toFixed" (fun x => toFixed x 2));
    setFailed ("Webhook health check failed: success rate " ++ rate ++
               "% is below threshold " ++ Number_toString failThreshold ++ "%")
  else mret tt.

Definition run (e : env) : action unit :=
  try_catch (run_body e)
            (fun error => setFailed ("Action failed: " ++ message error)).

End Run.

(** The world before the action starts, on a pull request with comments [cs]. *)
Definition initial (cs : list comment) : state :=
  {| outputs := ∅; failure := None; log := []; comments := cs; summary := None |}.

(** ** A host

    Node in the [en-US] locale: [Number::toString] gives the shortest
    decimal that reads back as the same double; [toLocaleString] takes that
    decimal, rounds it to at most three fraction digits, halves away from
    zero, and groups the integer digits by three. *)

Module Node.

Definition pow10 (n : Z) : Q :=
  match n with
  | Zneg p => 1 # (10 ^ p)
  | _ => inject_Z (10 ^ n)
  end.

(** The least [n], searched upwards from [n], with [v < 10^n]. *)
Fixpoint decimal_exponent (fuel : nat) (v : Q) (n : Z) : Z :=
  match fuel with
  | O => n
  | S fuel' => if Number.Qltb v (pow10 n) then n else decimal_exponent fuel' v (n + 1)
  end.

(** Does the real [q] round to the double [m * 2^e]? *)
Definition rounds_to (m : positive) (e : Z) (q : Q) : bool :=
  let hi := Number.finite_value false (2 * m + 1) (e - 1) in
  let lo := if Pos.eqb m (2 ^ 52) && (-1074 <? e)%Z
            then Number.finite_value false (4 * m - 1) (e - 2)
            else Number.finite_value false (2 * m - 1) (e - 1) in
  match m with
  | xO _ => negb (Number.Qltb q lo) && negb (Number.Qltb hi q)
  | _ => Number.Qltb lo q && Number.Qltb q hi
  end.

(** The shortest digits [s] (at most [k0 + fuel - 1] of them) and the
    exponent [n] with [s * 10^(n - k)] rounding to [m * 2^e]: of two
    candidates the one closer to the number, and of two equally close the
    even one. *)
Fixpoint shortest (fuel : nat) (m : positive) (e : Z) (n0 : Z) (k : Z) : Z * Z :=
  let v := Number.finite_value false m e in
  let p := (n0 - k)%Z in
  let lower := Qfloor (v / pow10 p) in
  let upper := (lower + 1)%Z in
  let good c := rounds_to m e (inject_Z c * pow10 p) in
  let dist c := Qabs (inject_Z c * pow10 p - v) in
  let pick c := if (c =? 10 ^ k)%Z then (1%Z, (n0 + 1)%Z) else (c, n0) in
  match fuel with
  | O => pick lower
  | S fuel' =>
      if good lower && good upper then
        if Number.Qltb (dist upper) (dist lower) then pick upper
        else if Number.Qltb (dist lower) (dist upper) then pick lower
        else if Z.even lower then pick lower else pick upper
      else if good lower then pick lower
      else if good upper then pick upper
      else shortest fuel' m e n0 (k + 1)
  end.

(** The shortest decimal of the finite number [m * 2^e]: its digits, as an
    integer [s] not divisible by 10, and the exponent [n], the number being
    [0.s * 10^n]. *)
Definition shortest_decimal (m : positive) (e : Z) : Z * Z :=
  let b := (Zpos (digits2_pos m) + e)%Z in
  let n0 := decimal_exponent 8 (Number.finite_value false m e)
                             ((b - 1) * 30103 / 100000 - 1) in
  shortest 17 m e n0 1.

Definition layout (digits : string) (n : Z) : string :=
  let k := Z.of_nat (String.length digits) in
  if (k <=? n)%Z && (n <=? 21)%Z then digits ++ repeat_string "0" (Z.to_nat (n - k))
  else if (0 <? n)%Z && (n <=? 21)%Z then
    string_take (Z.to_nat n) digits ++ "." ++ string_drop (Z.to_nat n) digits
  else if (-6 <? n)%Z && (n <=? 0)%Z then
    "0." ++ repeat_string "0" (Z.to_nat (- n)) ++ digits
  else
    let e := (n - 1)%Z in
    let sign := if (e <? 0)%Z then "-" else "+" in
    let mantissa := if (k =? 1)%Z then digits
                    else string_take 1 digits ++ "." ++ string_drop 1 digits in
    mantissa ++ "e" ++ sign ++ pretty (Z.abs e).

Definition toString (x : number) : string :=
  match x with
  | S754_nan => "NaN"
  | S754_zero _ => "0"
  | S754_infinity s => if s then "-Infinity" else "Infinity"
  | S754_finite s m e =>
      let '(digits, n) := shortest_decimal m e in
      (if s then "-" else "") ++ layout (pretty digits) n
  end.

Fixpoint group3 (digits : string) (n : nat) : string :=
  match n with
  | O => digits
  | S n' =>
      if (String.length digits <=? 3)%nat then digits
      else group3 (string_take (String.length digits - 3) digits) n' ++ "," ++
           string_drop (String.length digits - 3) digits
  end.

Fixpoint strip_zeros (fuel : nat) (s : string) : string :=
  match fuel with
  | O => s
  | S fuel' => if ends_with "0" s then strip_zeros fuel' (string_take (String.length s - 1) s) else s
  end.

Definition toLocaleString (x : number) : string :=
  match x with
  | S754_nan => "NaN"
  | S754_infinity s => if s then "-∞" else "∞"
  | S754_zero s => if s then "-0" else "0"
  | S754_finite s m e =>
      let '(digits, n) := shortest_decimal m e in
      let shown :=
        (inject_Z digits * pow10 (n - Z.of_nat (String.length (pretty digits))))%Q in
      let n := Qfloor (shown * 1000 + (1 # 2))%Q in
      let int := pretty (n / 1000)%Z in
      let frac := strip_zeros 3 (string_drop 1 (pretty (1000 + n mod 1000)%Z)) in
      (if s then "-" else "") ++ group3 int (String.length int) ++
      (if String.eqb frac "" then "" else "." ++ frac)
  end.

Definition host : Host :=
  {| Number_toString := toString; Number_toLocaleString := toLocaleString |}.

End Node.

(** ** The vocabulary of the specification *)

(** [x >= bound] as the specification reads it, on the extended reals:
    [NaN] is at least nothing, [+Infinity] at least everything. *)
Definition at_least (x : number) (bound : Z) : Prop :=
  match x with
  | S754_nan => False
  | S754_infinity s => s = false
  | _ => (inject_Z bound <= Number.real x)%Q
  end.

(** The numbers [toFixed] renders in fixed-point notation: the zeros and the
    finite numbers of magnitude below 1e21. *)
Definition fixed_range (x : number) : Prop :=
  match x with
  | S754_zero _ => True
  | S754_finite _ m e => (Number.finite_value false m e < inject_Z (10 ^ 21))%Q
  | _ => False
  end.

(** [s] ends in a point followed by exactly [f] characters. *)
Definition has_fraction_digits (s : string) (f : nat) : Prop :=
  exists whole frac, s = whole ++ "." ++ frac /\ String.length frac = f.

(** A comment counts as a health comment when its body holds the marker. *)
Definition is_health_comment (c : comment) : bool := includes marker (body c).

Definition health_comments (cs : list comment) : nat :=
  length (List.filter is_health_comment cs).

(** The first page of the listing is enough for the publisher: it shows a
    health comment, or the pull request has fewer comments than a page
    holds, so that a comment appended now is on the first page too. *)
Definition first_page_suffices (cs : list comment) : Prop :=
  find_botComment (first_page cs) = None -> (length cs < per_page)%nat.



(** The step run once per environment of [es]: every run is a new process,
    which finds on the pull request the comments the run before left. *)
Definition runs `{Host} (es : list env) (s : state) : state :=
  fold_left (fun s e => snd (run e (initial (comments s)))) es s.

(** What [core.getInput] returns for an input that is not required. *)
Definition input (e : env) (key : string) : string :=
  trim (default "" (inputs e !! key)).

(** The API base the run uses: the [api-url] input or the default. *)
Definition apiUrl_of (e : env) : string :=
  if String.eqb (input e "api-url") "" then "https://api.eventdock.app"
  else input e "api-url".

(** The threshold the run parses from the [fail-threshold] input. *)
Definition failThreshold_of (e : env) : number :=
  parseFloat (if String.eqb (input e "fail-threshold") "" then "90"
              else input e "fail-threshold").

(** The fetch the run performs once [api-key] has been read. *)
Definition fetch_of (e : env) (apiKey : string) : result HealthSnapshot :=
  getHealthStats (network e) (apiUrl_of e) apiKey (input e "endpoint-id").

(** The request [getHealthStats] sends. *)
Definition health_request (apiUrl apiKey endpointId : string) : request :=
  {| url := if negb (String.eqb endpointId "")
            then apiUrl ++ "/v1/health?endpoint_id=" ++ endpointId
            else apiUrl ++ "/v1/health";
     headers := [ ("Authorization", "Bearer " ++ apiKey);
                  ("Content-Type", "application/json") ] |}.


(** The fetch settled within the 30 seconds of the timer. *)
Definition settles_in_time (x : exchange) : Prop :=
  exists t, settles_at x = Some t /\ (t < default_timeout)%N.

(** The response arrived within the 30 seconds of the timer. *)
Definition arrives (x : exchange) (r : Response) : Prop :=
  settles_in_time x /\ outcome x = Ok r.

(** The failures of the health fetch, by kind: the timeout, a rejected
    request, a response that is not 2xx (with or without a readable body)
    and a body that does not parse. *)
Inductive fetch_failure (x : exchange) : error -> Prop :=
  | timed_out :
      ~ settles_in_time x ->
      fetch_failure x AbortError
  | rejected (err : error) :
      settles_in_time x ->
      outcome x = Throw err ->
      fetch_failure x err
  | not_2xx (r : Response) (t : string) :
      arrives x r -> ok r = false -> text r = Ok t ->
      fetch_failure x (Error ("API request failed: " ++ pretty (status r) ++ " - " ++ t))
  | not_2xx_unreadable (r : Response) (err : error) :
      arrives x r -> ok r = false -> text r = Throw err ->
      fetch_failure x err
  | malformed (r : Response) (err : error) :
      arrives x r -> ok r = true -> json r = Throw err ->
      fetch_failure x err.

Definition is_number (v : opt number) : Prop := exists x, v = val x.

(** The five statistics the renderer formats through a method call. *)
Definition formatted_fields_are_numbers (stats : HealthSnapshot) : Prop :=
  is_number (total_events stats) /\ is_number (delivered_events stats) /\
  is_number (failed_events stats) /\ is_number (success_rate stats) /\
  is_number (dlq_count stats).

Definition with_endpoints (stats : HealthSnapshot) (eps : opt (list EndpointStat))
    : HealthSnapshot :=
  {| total_events := total_events stats;
     delivered_events := delivered_events stats;
     failed_events := failed_events stats;
     pending_events := pending_events stats;
     dlq_count := dlq_count stats;
     success_rate := success_rate stats;
     endpoints_count := endpoints_count stats;
     endpoints := eps |}.

(** The outputs after line 172, over the outputs [o] the run started with. *)
Definition all_outputs (stats : HealthSnapshot) (rate report : string)
    (o : gmap string out_value) : gmap string out_value :=
  <["report" := out_string report]>
  (<["endpoints-checked" := out_number (endpoints_count stats)]>
  (<["dlq-count" := out_number (dlq_count stats)]>
  (<["failed-events" := out_number (failed_events stats)]>
  (<["delivered-events" := out_number (delivered_events stats)]>
  (<["total-events" := out_number (total_events stats)]>
  (<["success-rate" := out_string rate]>
  (<["status" := out_string (determineStatus (success_rate stats) (dlq_count stats))]>
   o))))))).

Section RunVocabulary.
Context `{Host}.

(** Lines 175 to 181 of [run], with the inputs the run has read. *)
Definition publish_step (e : env) (report : string) : action unit :=
  if String.eqb (input e "post-comment") "true" then
    if String.eqb (input e "github-token") "" then
      warning "github-token is required to post PR comments"
    else postPRComment e (input e "github-token") report
  else mret tt.

(** The message of the threshold gate. *)
Definition gate_message (rate : string) (failThreshold : number) : string :=
  "Webhook health check failed: success rate " ++ rate ++
  "% is below threshold " ++ Number_toString failThreshold ++ "%".

(** Lines 204 to 206 of [run]. *)
Definition gate_step (e : env) (stats : HealthSnapshot) : action unit :=
  if String.eqb (input e "fail-on-unhealthy") "true" &&
     js_lt (success_rate stats) (val (failThreshold_of e)) then
    rate ← lift (call (success_rate stats) "toFixed" (fun x => toFixed x 2));
    setFailed (gate_message rate (failThreshold_of e))
  else mret tt.

(** What is left of the [try] block of [run] once the outputs are set. *)
Definition after_outputs (e : env) (stats : HealthSnapshot) (report : string) : action unit :=
  _ ← publish_step e report;
  _ ← try_catch (write_job_summary e (determineStatus (success_rate stats) (dlq_count stats)) stats)
                (fun _ => debug "Job summary not available");
  gate_step e stats.

End RunVocabulary.

(** [e] with the input [key] set to [v]. *)
Definition with_input (e : env) (key v : string) : env :=
  {| inputs := <[key := v]> (inputs e);
     network := network e;
     pull_request := pull_request e;
     listComments_error := listComments_error e;
     updateComment_error := updateComment_error e;
     createComment_error := createComment_error e;
     summary_error := summary_error e |}.

(** ** Concrete inputs *)

(** The double a JSON number literal denotes. *)
Definition json_number (literal : string) : opt number := val (parseFloat literal).

(** Scenario A of the specification. *)
Definition scenario_A : HealthSnapshot :=
  {| total_events := json_number "1000";
     delivered_events := json_number "995";
     failed_events := json_number "5";
     pending_events := undefined;
     dlq_count := json_number "0";
     success_rate := json_number "99.5";
     endpoints_count := json_number "2";
     endpoints :=
       val [ {| ep_name := val "Stripe"; ep_provider := val "stripe";
                ep_status := val "active"; ep_success_rate := json_number "99.5" |};
             {| ep_name := val "Slack"; ep_provider := val "slack";
                ep_status := val "active"; ep_success_rate := json_number "99.5" |} ] |}.

(** Scenario C: 80% delivered, ten events in the dead-letter queue. *)
Definition scenario_C : HealthSnapshot :=
  {| total_events := json_number "1000";
     delivered_events := json_number "800";
     failed_events := json_number "200";
     pending_events := json_number "0";
     dlq_count := json_number "10";
     success_rate := json_number "80.0";
     endpoints_count := json_number "1";
     endpoints := undefined |}.

(** Scenario C again, from an upstream that left out [total_events]. *)
Definition without_total_events : HealthSnapshot :=
  {| total_events := undefined;
     delivered_events := json_number "800";
     failed_events := json_number "200";
     pending_events := json_number "0";
     dlq_count := json_number "10";
     success_rate := json_number "80.0";
     endpoints_count := json_number "1";
     endpoints := undefined |}.


(** A server that answers every request after [ms] milliseconds with
    status [code]; the body reads as [body] and parses as [parsed]. *)
Definition server (ms : N) (code : Z) (body : string) (parsed : result HealthSnapshot)
    : request -> exchange :=
  fun _ => {| settles_at := Some ms;
              outcome := Ok {| status := code; body_takes := 0; text := Ok body;
                               json := parsed |} |}.

(** A server that never answers. *)
Definition silent_server : request -> exchange :=
  fun _ => {| settles_at := None; outcome := Throw (TypeError "fetch failed") |}.

Definition env_of (ins : list (string * string)) (net : request -> exchange)
    (pr : option Z) (api_error : option error) : env :=
  {| inputs := list_to_map ins;
     network := net;
     pull_request := pr;
     listComments_error := api_error;
     updateComment_error := api_error;
     createComment_error := api_error;
     summary_error := None |}.

(** The error octokit throws when GitHub rejects the token. *)
Definition bad_credentials : error := {| name := "HttpError"; message := "Bad credentials" |}.

(** A plain check on a healthy upstream. *)
Definition healthy_env : env :=
  env_of [ ("api-key", "secret") ] (server 120 200 "" (Ok scenario_A)) None None.

(** Scenario C: the gate enabled at the default threshold of 90. *)
Definition gated_env : env :=
  env_of [ ("api-key", "secret"); ("fail-on-unhealthy", "true"); ("fail-threshold", "90") ]
         (server 120 200 "" (Ok scenario_C)) None None.

(** Scenario D: the upstream answers 500 with the body "internal error". *)
Definition failing_env : env :=
  env_of [ ("api-key", "secret") ]
         (server 80 500 "internal error"
                 (Throw {| name := "SyntaxError";
                           message := "Unexpected token i in JSON at position 0" |}))
         None None.

(** Scenario F: the upstream never answers. *)
Definition hanging_env : env :=
  env_of [ ("api-key", "secret") ] silent_server None None.

(** A healthy upstream, a comment requested on pull request 7, and a token
    GitHub rejects. *)
Definition rejected_token_env : env :=
  env_of [ ("api-key", "secret"); ("post-comment", "true"); ("github-token", "ghs_expired") ]
         (server 120 200 "" (Ok scenario_A)) (Some 7%Z) (Some bad_credentials).

(** Scenario C with the gate enabled, a comment requested and a token
    GitHub rejects. *)
Definition gated_rejected_token_env : env :=
  env_of [ ("api-key", "secret"); ("fail-on-unhealthy", "true"); ("fail-threshold", "90");
           ("post-comment", "true"); ("github-token", "ghs_expired") ]
         (server 120 200 "" (Ok scenario_C)) (Some 7%Z) (Some bad_credentials).

(** The gate enabled on an upstream that left out [total_events]. *)
Definition gated_incomplete_env : env :=
  env_of [ ("api-key", "secret"); ("fail-on-unhealthy", "true"); ("fail-threshold", "90") ]
         (server 120 200 "" (Ok without_total_events)) None None.

(** A healthy upstream and a comment requested without a token. *)
Definition no_token_env : env :=
  env_of [ ("api-key", "secret"); ("post-comment", "true") ]
         (server 120 200 "" (Ok scenario_A)) (Some 7%Z) None.

(** A comment requested with a working token on pull request 7. *)
Definition commenting_env : env :=
  env_of [ ("api-key", "secret"); ("post-comment", "true"); ("github-token", "ghs_valid") ]
         (server 120 200 "" (Ok scenario_A)) (Some 7%Z) None.


(** A pull request on which a reviewer mentioned the report by name. *)
Definition human_comments : list comment :=
  [ {| id := 101; body := "LGTM" |};
    {| id := 102;
       body := "Please read the EventDock Webhook Health Report before merging." |};
    {| id := 103; body := "Merging tomorrow." |} ].

(** The world a run of the step leaves on a pull request with comments [cs]. *)
Definition final `{Host} (e : env) (cs : list comment) : state :=
  snd (run e (initial cs)).

(** ** Vocabulary for further properties *)

(** The health fetch returns the parsed body [stats]. *)
Definition delivers (x : exchange) (stats : HealthSnapshot) : Prop :=
  exists r, arrives x r /\ ok r = true /\ json r = Ok stats.

(** [Number.isNaN] *)
Definition is_NaN (x : number) : bool :=
  match x with S754_nan => true | _ => false end.

(** [e] with another network behind [fetch]. *)
Definition with_network (e : env) (net : request -> exchange) : env :=
  {| inputs := inputs e;
     network := net;
     pull_request := pull_request e;
     listComments_error := listComments_error e;
     updateComment_error := updateComment_error e;
     createComment_error := createComment_error e;
     summary_error := summary_error e |}.

(** The outputs after line 168, before the report is rendered. *)
Definition seven_outputs (stats : HealthSnapshot) (rate : string)
    (o : gmap string out_value) : gmap string out_value :=
  <["endpoints-checked" := out_number (endpoints_count stats)]>
  (<["dlq-count" := out_number (dlq_count stats)]>
  (<["failed-events" := out_number (failed_events stats)]>
  (<["delivered-events" := out_number (delivered_events stats)]>
  (<["total-events" := out_number (total_events stats)]>
  (<["success-rate" := out_string rate]>
  (<["status" := out_string (determineStatus (success_rate stats) (dlq_count stats))]>
   o)))))).

(** The state [core.setFailed(msg)] leaves. *)
Definition failed_with (msg : string) (s : state) : state :=
  {| outputs := outputs s; failure := Some msg; log := log s ++ [(LError, msg)];
     comments := comments s; summary := summary s |}.

(** The six statistics the job summary formats through a method call. *)
Definition summary_fields_are_numbers (stats : HealthSnapshot) : Prop :=
  is_number (success_rate stats) /\ is_number (total_events stats) /\
  is_number (delivered_events stats) /\ is_number (failed_events stats) /\
  is_number (dlq_count stats) /\ is_number (endpoints_count stats).

(** The closing lines of every report (lines 86 and 87). *)
Definition footer : string :=
  "---" ++ nl ++
  "*Powered by [EventDock](https://eventdock.app) - Reliable Webhook Infrastructure*" ++ nl.

Section RendererVocabulary.
Context `{Host}.

(** The rows of the endpoint table, one per endpoint, in listing order. *)
Definition endpoint_rows (eps : list EndpointStat) : string :=
  fold_right (fun ep rows => endpoint_row ep ++ rows) "" eps.

(** The endpoint section as lines 76 to 83 lay it out. *)
Definition endpoints_section (eps : list EndpointStat) : string :=
  "### Endpoints" ++ nl ++ nl ++
  "| Name | Provider | Status | Success Rate |" ++ nl ++
  "|------|----------|--------|-------------|" ++ nl ++
  endpoint_rows eps ++ nl.

End RendererVocabulary.

(** ** Vocabulary for the structure of a run *)

(** The outputs the action documents. *)
Definition output_keys : list string :=
  [ "status"; "success-rate"; "total-events"; "delivered-events"; "failed-events";
    "dlq-count"; "endpoints-checked"; "report" ].

(** What the publisher does to the comments of a pull request: it rewrites
    the first health comment of the first page, or appends one when that
    page shows none. *)
Inductive upsert (cs : list comment) : list comment -> Prop :=
  | upsert_update (c : comment) (report : string) :
      find_botComment (first_page cs) = Some c -> includes marker report = true ->
      upsert cs (map (update_body (id c) report) cs)
  | upsert_create (report : string) :
      find_botComment (first_page cs) = None -> includes marker report = true ->
      upsert cs (cs ++ [ {| id := fresh_id cs; body := report |} ]).

(** The two messages [run] passes to [core.setFailed]. *)
Definition failure_message `{Host} (msg : string) : Prop :=
  (exists m, msg = "Action failed: " ++ m) \/
  (exists rate failThreshold, msg = gate_message rate failThreshold).

(** [m] keeps the invariant [Inv], whether it returns or throws. *)
Definition preserves {A : Type} (Inv : state -> Prop) (m : action A) : Prop :=
  forall s, Inv s -> Inv (snd (m s)).

(** From a state in [Inv], [m] throws in [Inv] or returns in [Q]. *)
Definition ends_in {A : Type} (Inv Q : state -> Prop) (m : action A) : Prop :=
  forall s, Inv s ->
    match m s with
    | (Ok _, s') => Q s'
    | (Throw _, s') => Inv s'
    end.

(** Log entries below the error level. *)
Definition quiet (entries : list (level * string)) : Prop :=
  Forall (fun entry => fst entry <> LError) entries.

(** Every comment of [cs] that is not a health comment is found unchanged
    at the same position in [cs']. *)
Definition kept (cs cs' : list comment) : Prop :=
  forall i c, cs !! i = Some c -> is_health_comment c = false -> cs' !! i = Some c.

(** The comments [postPRComment] leaves on a pull request whose comments
    were [cs]: what the calls of lines 105 to 129 do to them, each call
    doing nothing when it fails. *)
Definition published (e : env) (report : string) (cs : list comment) : list comment :=
  match pull_request e, listComments_error e with
  | Some _, None =>
      match find_botComment (first_page cs) with
      | Some c =>
          match updateComment_error e with
          | None => map (update_body (id c) report) cs
          | Some _ => cs
          end
      | None =>
          match createComment_error e with
          | None => cs ++ [ {| id := fresh_id cs; body := report |} ]
          | Some _ => cs
          end
      end
  | _, _ => cs
  end.

(** ** Further concrete inputs *)

(** The gate enabled without a [fail-threshold] input, on scenario C. *)
Definition default_gate_env : env :=
  env_of [ ("api-key", "secret"); ("fail-on-unhealthy", "true") ]
         (server 120 200 "" (Ok scenario_C)) None None.

(** An upstream that answers without a [success_rate]. *)
Definition without_success_rate : HealthSnapshot :=
  {| total_events := json_number "0";
     delivered_events := json_number "0";
     failed_events := json_number "0";
     pending_events := json_number "0";
     dlq_count := json_number "0";
     success_rate := undefined;
     endpoints_count := json_number "0";
     endpoints := val [] |}.

(** A comment requested on an upstream that answers without a [success_rate]. *)
Definition rateless_env : env :=
  env_of [ ("api-key", "secret"); ("post-comment", "true"); ("github-token", "ghs_valid") ]
         (server 120 200 "" (Ok without_success_rate)) (Some 7%Z) None.

(** A workflow that does not pass an [api-key]. *)
Definition keyless_env : env :=
  env_of [ ("endpoint-id", "ep_1") ] (server 120 200 "" (Ok scenario_A)) None None.

(** A server that answers the default health URL as scenario A and nothing
    else. *)
Definition health_only_server : request -> exchange :=
  fun req =>
    if String.eqb (url req) "https://api.eventdock.app/v1/health"
    then server 120 200 "" (Ok scenario_A) req
    else silent_server req.

(** A pull request whose health comment is followed and preceded by
    comments of reviewers. *)
Definition busy_comments : list comment :=
  [ {| id := 11; body := "LGTM" |};
    {| id := 12; body := "## :x: EventDock Webhook Health Report" |};
    {| id := 15; body := "Merging tomorrow." |} ].

(** Scenario C with the gate switched on in capitals. *)
Definition shouting_env : env :=
  env_of [ ("api-key", "secret"); ("fail-on-unhealthy", "TRUE") ]
         (server 120 200 "" (Ok scenario_C)) None None.


(** A pull request with thirty comments of reviewers, a full page. *)
Definition crowded_comments : list comment :=
  map (fun n => {| id := Z.of_nat n; body := "+1" |}) (seq 1 30).

(** The same pull request after a reviewer named the report in comment 31. *)
Definition crowded_with_mention : list comment :=
  crowded_comments ++
  [ {| id := 31;
       body := "Please read the EventDock Webhook Health Report before merging." |} ].


(* ===================================================================== *)
(** * Theorems *)

(** ** Numbers *)

Lemma Qltb_false_iff (a b : Q) : Number.Qltb a b = false <-> (b <= a)%Q.
Proof.
  unfold Number.Qltb. destruct (Qcompare_spec a b) as [E | L | G]; split; intros Hx;
    try reflexivity; try discriminate.
  - rewrite E. apply Qle_refl.
  - exfalso. exact (Qle_not_lt _ _ Hx L).
  - apply Qlt_le_weak, G.
Qed.

Lemma real_of_Z (n : Z) : Number.real (Number.of_Z n) = inject_Z n.
Proof. destruct n; reflexivity. Qed.

Lemma lessThan_of_Z (x : number) (b : Z) :
  Number.lessThan x (Number.of_Z b) =
  match x with
  | S754_nan => None
  | S754_infinity s => Some s
  | _ => Some (Number.Qltb (Number.real x) (inject_Z b))
  end.
Proof.
  rewrite <- (real_of_Z b).
  destruct x as [s | [|] | | s m e], b; reflexivity.
Qed.

Lemma js_ge_at_least (x : number) (b : Z) :
  js_ge (val x) (num b) = true <-> at_least x b.
Proof.
  unfold js_ge, num, ToNumber. rewrite lessThan_of_Z.
  destruct x as [s | [|] | | s m e]; cbn [at_least Number.real].
  - destruct (Number.Qltb 0 (inject_Z b)) eqn:E.
    + split; [discriminate |]. intros Hle. apply Qltb_false_iff in Hle. congruence.
    + split; [| reflexivity]. intros _. now apply Qltb_false_iff.
  - split; [discriminate | discriminate].
  - split; reflexivity.
  - split; [discriminate | contradiction].
  - destruct (Number.Qltb (Number.finite_value s m e) (inject_Z b)) eqn:E.
    + split; [discriminate |]. intros Hle. apply Qltb_false_iff in Hle. congruence.
    + split; [| reflexivity]. intros _. now apply Qltb_false_iff.
Qed.

Lemma js_ge_NaN (b : opt number) : js_ge (val NaN) b = false.
Proof. reflexivity. Qed.

Lemma js_strict_eq_zero (n : Z) :
  js_strict_eq (num n) (Number.of_Z 0) = true <-> n = 0%Z.
Proof. destruct n; cbn; split; intros E; (reflexivity || discriminate). Qed.

Lemma finite_value_nonzero (s : bool) (m : positive) (e : Z) :
  Number.Qeqb (Number.finite_value s m e) 0 = false.
Proof.
  unfold Number.Qeqb, Number.finite_value, Qcompare.
  destruct e, s; cbn; try reflexivity;
    change 2%Z with (Zpos 2); rewrite <- Pos2Z.inj_pow; reflexivity.
Qed.

(** Against any double, [dlqCount === 0] holds for the two zeros only. *)
Lemma js_strict_eq_zero_number (d : number) :
  js_strict_eq (val d) (Number.of_Z 0) = true <-> exists s, d = S754_zero s.
Proof.
  destruct d as [s | s | | s m e]; cbn [js_strict_eq Number.equal Number.of_Z].
  - split; [eauto | reflexivity].
  - split; [discriminate | intros [? ?]; discriminate].
  - split; [discriminate | intros [? ?]; discriminate].
  - change (Number.real (S754_finite s m e)) with (Number.finite_value s m e).
    change (Number.real (S754_zero false)) with 0%Q.
    rewrite finite_value_nonzero. split; [discriminate | intros [? ?]; discriminate].
Qed.

(** ** The classifier *)

Lemma at_least_mono (x : number) (a b : Z) :
  (a <= b)%Z -> at_least x b -> at_least x a.
Proof.
  intros Hab. destruct x; cbn [at_least]; try tauto;
    apply Qle_trans; now rewrite <- Zle_Qle.
Qed.

(** Turns [b = true <-> P], once [b] is known, into [P] or [~ P]. *)
Ltac settle H :=
  match type of H with
  | true = true <-> ?P =>
      let K := fresh in assert (K : P) by (apply H; reflexivity); clear H
  | false = true <-> ?P =>
      let K := fresh in
      assert (K : ~ P) by (let X := fresh in intros X; apply H in X; discriminate X);
      clear H
  end.

(** C1. For every double [successRate] and integer [dlqCount] the classifier
    answers "healthy" exactly when [successRate >= 99] and [dlqCount = 0],
    otherwise "degraded" exactly when [successRate >= 90], otherwise
    "unhealthy"; a NaN rate fails both comparisons and is "unhealthy".  A
    [dlqCount] given as a double counts as 0 exactly when it is a zero. *)
Theorem determineStatus_spec (successRate : number) (dlqCount : Z) :
  let r := determineStatus (val successRate) (num dlqCount) in
  (r = "healthy" <-> at_least successRate 99 /\ dlqCount = 0%Z) /\
  (r = "degraded" <->
     ~ (at_least successRate 99 /\ dlqCount = 0%Z) /\ at_least successRate 90) /\
  (r = "unhealthy" <-> ~ at_least successRate 90) /\
  determineStatus (val NaN) (num dlqCount) = "unhealthy" /\
  (forall d : number,
     determineStatus (val successRate) (val d) = "healthy" <->
     at_least successRate 99 /\ exists s, d = S754_zero s).
Proof.
  cbv zeta.
  assert (Hd : forall d : number,
             determineStatus (val successRate) (val d) = "healthy" <->
             at_least successRate 99 /\ exists s, d = S754_zero s).
  { intros d. unfold determineStatus.
    pose proof (js_ge_at_least successRate 99) as H99.
    pose proof (js_strict_eq_zero_number d) as Hz.
    destruct (js_ge (val successRate) (num 99)),
             (js_strict_eq (val d) (Number.of_Z 0)),
             (js_ge (val successRate) (num 90));
      settle H99; settle Hz; cbn [andb]; split; intros; try discriminate; tauto. }
  revert Hd. generalize (forall d : number,
             determineStatus (val successRate) (val d) = "healthy" <->
             at_least successRate 99 /\ exists s, d = S754_zero s).
  intros General Hd. unfold determineStatus.
  pose proof (js_ge_at_least successRate 99) as H99.
  pose proof (js_ge_at_least successRate 90) as H90.
  pose proof (js_strict_eq_zero dlqCount) as Hz.
  pose proof (at_least_mono successRate 90 99 ltac:(lia)) as Hm.
  rewrite js_ge_NaN.
  destruct (js_ge (val successRate) (num 99)),
           (js_strict_eq (num dlqCount) (Number.of_Z 0)),
           (js_ge (val successRate) (num 90));
    settle H99; settle H90; settle Hz; cbn [andb];
    repeat split; intros; try discriminate; tauto.
Qed.

(** ** Strings *)

Lemma prefix_app (a b : string) : String.prefix a (a ++ b) = true.
Proof.
  induction a as [| c a IH].
  - now destruct b.
  - change (String c a ++ b) with (String c (a ++ b)).
    change (String.prefix (String c a) (String c (a ++ b)))
      with (if ascii_dec c c then String.prefix a (a ++ b) else false).
    destruct (ascii_dec c c) as [_ | N]; [exact IH | now destruct N].
Qed.

Lemma prefix_inv (a s : string) :
  String.prefix a s = true -> exists post, s = a ++ post.
Proof.
  revert s. induction a as [| c a IH]; intros s Hp.
  - now exists s.
  - destruct s as [| d s]; [discriminate |].
    change (String.prefix (String c a) (String d s))
      with (if ascii_dec c d then String.prefix a s else false) in Hp.
    destruct (ascii_dec c d) as [-> | _]; [| discriminate].
    destruct (IH _ Hp) as [post ->]. now exists post.
Qed.

Lemma string_app_assoc (a b c : string) : (a ++ b) ++ c = a ++ (b ++ c).
Proof.
  induction a as [| x a IH]; [reflexivity |].
  change (String x ((a ++ b) ++ c) = String x (a ++ (b ++ c))). now f_equal.
Qed.

(** [includes] is substring containment. *)
Lemma includes_spec (needle s : string) :
  includes needle s = true <-> exists pre post, s = pre ++ needle ++ post.
Proof.
  split.
  - induction s as [| c s IH]; cbn [includes]; intros Hi.
    + rewrite orb_false_r in Hi. apply prefix_inv in Hi as [post ->]. now exists "", post.
    + apply orb_true_iff in Hi as [Hp | Hr].
      * apply prefix_inv in Hp as [post ->]. now exists "", post.
      * destruct (IH Hr) as (pre & post & ->). now exists (String c pre), post.
  - intros (pre & post & ->). induction pre as [| c pre IH].
    + change ("" ++ needle ++ post) with (needle ++ post).
      destruct (needle ++ post) eqn:E; cbn [includes];
        rewrite <- E, prefix_app; reflexivity.
    + change (String c pre ++ needle ++ post) with (String c (pre ++ needle ++ post)).
      cbn [includes]. rewrite IH. apply orb_true_r.
Qed.

Lemma includes_app_l (needle a b : string) :
  includes needle a = true -> includes needle (a ++ b) = true.
Proof.
  rewrite !includes_spec. intros (pre & post & ->).
  exists pre, (post ++ b). now rewrite !string_app_assoc.
Qed.

Lemma string_length_app (a b : string) :
  String.length (a ++ b) = (String.length a + String.length b)%nat.
Proof.
  induction a as [| c a IH]; [reflexivity |].
  change (S (String.length (a ++ b)) = S (String.length a + String.length b)).
  now rewrite IH.
Qed.

Lemma repeat_string_length (c : string) (n : nat) :
  String.length (repeat_string c n) = (n * String.length c)%nat.
Proof.
  induction n as [| n IH]; [reflexivity |].
  cbn [repeat_string]. rewrite string_length_app, IH. lia.
Qed.

Lemma string_take_drop (i : nat) (s : string) : string_take i s ++ string_drop i s = s.
Proof.
  revert s. induction i as [| i IH]; intros [| c s]; try reflexivity.
  cbn [string_take string_drop].
  change (String c (string_take i s ++ string_drop i s) = String c s). now rewrite IH.
Qed.

Lemma string_drop_length (i : nat) (s : string) :
  String.length (string_drop i s) = (String.length s - i)%nat.
Proof. revert s. induction i as [| i IH]; intros [| c s]; try reflexivity. apply IH. Qed.

(** ** Fixed-point notation *)

Lemma fixed_digits_fraction (n : Z) (f : nat) :
  f <> 0%nat -> has_fraction_digits (fixed_digits n f) f.
Proof.
  intros Hf. unfold fixed_digits. destruct (Nat.eqb_spec f 0) as [| _]; [contradiction |].
  cbv zeta.
  destruct (Nat.leb_spec (String.length (pretty n)) f) as [Hle | Hlt];
    (eexists _, _; split; [reflexivity |]; rewrite string_drop_length).
  - rewrite string_length_app, repeat_string_length. cbn [String.length]. lia.
  - lia.
Qed.

Lemma Qltb_true_iff (a b : Q) : Number.Qltb a b = true <-> (a < b)%Q.
Proof.
  unfold Number.Qltb. rewrite Qlt_alt. destruct (a ?= b)%Q; split; congruence.
Qed.

Lemma finite_value_positive (m : positive) (e : Z) :
  (0 < Number.finite_value false m e)%Q.
Proof.
  unfold Number.finite_value, Qlt. destruct e as [| p | p]; cbn [Qnum Qden inject_Z]; lia.
Qed.

(** [toFixed(f)] with [f > 0] writes exactly [f] fraction digits for every
    number it renders in fixed-point notation. *)
Lemma toFixed_fraction `{Host} (x : number) (f : nat) :
  f <> 0%nat -> fixed_range x -> has_fraction_digits (toFixed x f) f.
Proof.
  intros Hf Hx.
  assert (Hshape : forall sign n, has_fraction_digits (sign ++ fixed_digits n f) f).
  { intros sign n. destruct (fixed_digits_fraction n f Hf) as (whole & frac & -> & Hlen).
    exists (sign ++ whole), frac. now rewrite string_app_assoc. }
  destruct x as [s | s | | s m e]; try contradiction; unfold toFixed.
  - apply (Hshape "").
  - cbn [fixed_range] in Hx. cbn [Number.real]. unfold Qabs_neg.
    pose proof (finite_value_positive m e) as Hpos.
    destruct s.
    + change (Number.finite_value true m e) with (Qopp (Number.finite_value false m e)).
      assert (Hneg : Number.Qltb (Qopp (Number.finite_value false m e)) 0 = true).
      { apply Qltb_true_iff. apply Qopp_lt_compat in Hpos. exact Hpos. }
      rewrite Hneg.
      assert (Hlt : Number.Qltb (Qopp (Qopp (Number.finite_value false m e)))
                                (inject_Z (10 ^ 21)) = true).
      { apply Qltb_true_iff. now rewrite Qopp_involutive. }
      rewrite Hlt. apply Hshape.
    + assert (Hnn : Number.Qltb (Number.finite_value false m e) 0 = false).
      { apply Qltb_false_iff. now apply Qlt_le_weak. }
      rewrite Hnn. apply Qltb_true_iff in Hx. rewrite Hx. apply Hshape.
Qed.

(** ** The publisher *)

Lemma find_botComment_Some (cs : list comment) (c : comment) :
  find_botComment cs = Some c ->
  exists pre post : list comment,
    cs = (pre ++ c :: post)%list /\ is_health_comment c = true /\
    Forall (fun x => is_health_comment x = false) pre.
Proof.
  unfold find_botComment. induction cs as [| x cs IH]; cbn [find]; [discriminate |].
  fold (is_health_comment x). destruct (is_health_comment x) eqn:Hx.
  - intros [= ->]. exists [], cs. repeat split; [exact Hx | constructor].
  - intros Hf. destruct (IH Hf) as (pre & post & -> & Hc & Hpre).
    exists (x :: pre), post. repeat split; [exact Hc | now constructor].
Qed.

Lemma find_botComment_None (cs : list comment) :
  find_botComment cs = None <-> Forall (fun x => is_health_comment x = false) cs.
Proof.
  unfold find_botComment. induction cs as [| x cs IH]; cbn [find].
  - split; [constructor | reflexivity].
  - fold (is_health_comment x). destruct (is_health_comment x) eqn:Hx.
    + split; [discriminate |]. intros Hall. inversion Hall; congruence.
    + rewrite IH. split; [now constructor | intros Hall; now inversion Hall].
Qed.

(** The first marked comment is found whatever follows it. *)
Lemma find_botComment_first (pre post : list comment) (c : comment) :
  Forall (fun x => is_health_comment x = false) pre ->
  is_health_comment c = true ->
  find_botComment (pre ++ c :: post) = Some c.
Proof.
  unfold find_botComment. induction 1 as [| x pre Hx _ IH]; intros Hc; cbn [app find].
  - fold (is_health_comment c). now rewrite Hc.
  - fold (is_health_comment x). rewrite Hx. now apply IH.
Qed.

Lemma update_body_other (n : Z) (r : string) (l : list comment) :
  n ∉ map id l -> map (update_body n r) l = l.
Proof.
  induction l as [| x l IH]; cbn [map]; [reflexivity |].
  rewrite not_elem_of_cons. intros [Hx Hl]. rewrite (IH Hl). f_equal.
  unfold update_body. destruct (Z.eqb_spec (id x) n); [congruence | reflexivity].
Qed.

(** Updating by id rewrites the one comment with that id, in place. *)
Lemma update_in_place (pre post : list comment) (c : comment) (r : string) :
  NoDup (map id (pre ++ c :: post)) ->
  map (update_body (id c) r) (pre ++ c :: post) =
  (pre ++ {| id := id c; body := r |} :: post)%list.
Proof.
  rewrite map_app. cbn [map]. intros Hnd.
  apply NoDup_app in Hnd as (_ & Hdisj & Hnd).
  apply NoDup_cons in Hnd as [Hpost _].
  rewrite map_app. cbn [map]. rewrite update_body_other.
  - rewrite (update_body_other _ _ post Hpost). f_equal. f_equal.
    unfold update_body. now rewrite Z.eqb_refl.
  - intros Hin. apply (Hdisj _ Hin). left.
Qed.

Lemma fresh_id_above (cs : list comment) (x : Z) :
  x ∈ map id cs -> (x < fresh_id cs)%Z.
Proof.
  unfold fresh_id. induction cs as [| c cs IH]; cbn [map fold_right].
  - intros Hin. inversion Hin.
  - rewrite elem_of_cons. intros [-> | Hin]; [lia | specialize (IH Hin); lia].
Qed.

Lemma fresh_id_fresh (cs : list comment) : fresh_id cs ∉ map id cs.
Proof. intros Hin. apply fresh_id_above in Hin. lia. Qed.

(** *** The first page of the listing *)

Lemma first_page_split (cs : list comment) (c : comment) :
  find_botComment (first_page cs) = Some c ->
  exists pre post : list comment,
    cs = (pre ++ c :: post)%list /\ (length pre < per_page)%nat /\
    is_health_comment c = true /\
    Forall (fun x => is_health_comment x = false) pre.
Proof.
  intros Hfind.
  destruct (find_botComment_Some _ _ Hfind) as (pre & post' & Hpage & Hc & Hpre).
  exists pre, (post' ++ drop per_page cs)%list. split; [| split; [| now split]].
  - rewrite <- (take_drop per_page cs) at 1. fold (first_page cs). rewrite Hpage.
    now rewrite <- app_assoc.
  - pose proof (length_take cs per_page) as Hlen. fold (first_page cs) in Hlen.
    rewrite Hpage, length_app in Hlen. cbn [length] in Hlen. lia.
Qed.

Lemma first_page_first (pre post : list comment) (c : comment) :
  Forall (fun x => is_health_comment x = false) pre ->
  is_health_comment c = true ->
  (length pre < per_page)%nat ->
  find_botComment (first_page (pre ++ c :: post)) = Some c.
Proof.
  intros Hpre Hc Hlen. unfold first_page.
  rewrite take_app_ge by lia.
  destruct (per_page - length pre)%nat as [| k] eqn:Hk; [lia |].
  cbn [take]. now apply find_botComment_first.
Qed.

Lemma first_page_all (cs : list comment) :
  (length cs < per_page)%nat -> first_page cs = cs.
Proof. intros Hlen. apply take_ge. lia. Qed.

Lemma update_body_ids (n : Z) (r : string) (cs : list comment) :
  map id (map (update_body n r) cs) = map id cs.
Proof.
  induction cs as [| x cs IH]; cbn [map]; [reflexivity |]. rewrite IH. f_equal.
  unfold update_body. now destruct (id x =? n)%Z.
Qed.

Lemma fresh_id_NoDup (cs : list comment) (r : string) :
  NoDup (map id cs) -> NoDup (map id (cs ++ [ {| id := fresh_id cs; body := r |} ])).
Proof.
  intros Hnd. rewrite map_app. cbn [map id]. apply NoDup_app. repeat split.
  - exact Hnd.
  - intros x Hx Hin. apply list_elem_of_singleton in Hin as ->.
    exact (fresh_id_fresh cs Hx).
  - apply NoDup_singleton.
Qed.




(** C9. The marker scan matches the phrase anywhere in a body: the first
    comment holding it among those the listing call returns (the first page
    of 30), whoever wrote it and whatever surrounds the phrase, is selected
    and its whole body becomes the new report. *)
Theorem marker_scan_overwrites_first_match
    (e : env) (token report : string) (s : state) (prNumber : Z)
    (pre post : list comment) (c : comment) (before after : string) :
  pull_request e = Some prNumber ->
  listComments_error e = None ->
  updateComment_error e = None ->
  comments s = (pre ++ c :: post)%list ->
  (length pre < per_page)%nat ->
  NoDup (map id (comments s)) ->
  Forall (fun x => includes marker (body x) = false) pre ->
  body c = before ++ marker ++ after ->
  find_botComment (first_page (comments s)) = Some c /\
  fst (postPRComment e token report s) = Ok tt /\
  comments (snd (postPRComment e token report s)) =
    (pre ++ {| id := id c; body := report |} :: post)%list.
Proof.
  intros Hpr Hl Hu Hcs Hlen Hnd Hpre Hbody.
  assert (Hc : is_health_comment c = true).
  { unfold is_health_comment. rewrite Hbody. apply includes_spec. now exists before, after. }
  assert (Hfind : find_botComment (first_page (comments s)) = Some c).
  { rewrite Hcs. now apply first_page_first. }
  split; [exact Hfind |].
  unfold postPRComment, listComments, updateComment. rewrite Hpr, Hl, Hu.
  cbv [mbind action_bind mret action_ret api_call get_comments].
  rewrite Hfind. cbn [fst snd comments]. split; [reflexivity |].
  rewrite Hcs in Hnd |- *. now apply update_in_place.
Qed.

(** *** How the comments evolve under the action's steps *)















(** ** The renderer *)

Section RendererFacts.
Context `{Host}.

Lemma includes_fold_rows (needle : string) (l : list EndpointStat) (r : string) :
  includes needle r = true ->
  includes needle (fold_left (fun report ep => report ++ endpoint_row ep) l r) = true.
Proof.
  revert r. induction l as [| ep l IH]; intros r Hr; cbn [fold_left]; [exact Hr |].
  apply IH. now apply includes_app_l.
Qed.

(** Every report the renderer returns holds the marker, in its heading. *)
Lemma generateReport_marker (stats : HealthSnapshot) (report : string) :
  generateReport stats = Ok report -> includes marker report = true.
Proof.
  unfold generateReport.
  set (heading := "## " ++ getStatusEmoji _ ++ " EventDock Webhook Health Report" ++ nl ++ nl).
  assert (Hh : includes marker heading = true).
  { apply includes_spec. eexists ("## " ++ getStatusEmoji _ ++ " "), (nl ++ nl).
    subst heading. now rewrite !string_app_assoc. }
  clearbody heading.
  destruct (total_events stats); [discriminate | discriminate |].
  destruct (delivered_events stats); [discriminate | discriminate |].
  destruct (failed_events stats); [discriminate | discriminate |].
  destruct (success_rate stats); [discriminate | discriminate |].
  destruct (dlq_count stats); [discriminate | discriminate |].
  cbv [call mbind result_bind mret result_ret]. intros [= <-].
  repeat apply includes_app_l.
  destruct (has_endpoints (endpoints stats));
    [apply includes_app_l, includes_fold_rows |];
    repeat apply includes_app_l; exact Hh.
Qed.

Lemma generateReport_Ok (stats : HealthSnapshot) :
  (exists report, generateReport stats = Ok report) <->
  formatted_fields_are_numbers stats.
Proof.
  unfold formatted_fields_are_numbers, is_number, generateReport. split.
  - intros [report Hr].
    destruct (total_events stats); [discriminate | discriminate |].
    destruct (delivered_events stats); [discriminate | discriminate |].
    destruct (failed_events stats); [discriminate | discriminate |].
    destruct (success_rate stats); [discriminate | discriminate |].
    destruct (dlq_count stats); [discriminate | discriminate |].
    repeat split; eexists; reflexivity.
  - intros ([? ->] & [? ->] & [? ->] & [? ->] & [? ->]). eexists. reflexivity.
Qed.

Lemma includes_app_r (needle a b : string) :
  includes needle b = true -> includes needle (a ++ b) = true.
Proof.
  rewrite !includes_spec. intros (pre & post & ->).
  exists (a ++ pre), post. now rewrite string_app_assoc.
Qed.

(** Every report the renderer returns shows [endpoints_count] as a template
    literal prints it, whatever it is. *)
Lemma generateReport_endpoints_count (stats : HealthSnapshot) (report : string) :
  generateReport stats = Ok report ->
  includes ("| Endpoints | " ++ show Number_toString (endpoints_count stats) ++ " |")
           report = true.
Proof.
  unfold generateReport.
  destruct (total_events stats); [discriminate | discriminate |].
  destruct (delivered_events stats); [discriminate | discriminate |].
  destruct (failed_events stats); [discriminate | discriminate |].
  destruct (success_rate stats); [discriminate | discriminate |].
  destruct (dlq_count stats); [discriminate | discriminate |].
  cbv [call mbind result_bind mret result_ret]. intros [= <-].
  match goal with
  | |- context [if _ then _ else ?r] => set (summary_table := r)
  end.
  assert (Ht : includes ("| Endpoints | " ++ show Number_toString (endpoints_count stats) ++ " |")
                        summary_table = true).
  { subst summary_table. apply includes_app_r, includes_spec. exists "", (nl ++ nl).
    change ("" ++ ?x) with x. now rewrite !string_app_assoc. }
  clearbody summary_table.
  repeat apply includes_app_l.
  destruct (has_endpoints (endpoints stats));
    [apply includes_app_l, includes_fold_rows |];
    repeat apply includes_app_l; exact Ht.
Qed.

(** C7, as the code has it. The renderer completes exactly when the five
    statistics it formats through a method call ([total_events],
    [delivered_events], [failed_events], [success_rate], [dlq_count]) are
    numbers; then missing or null [endpoints] are rendered as an empty list,
    a missing or null per-endpoint [success_rate] as "N/A", and a missing
    or null [endpoints_count] as the text "undefined" or "null".  The
    classifier completes on every snapshot, and answers "unhealthy" when
    [success_rate] is missing or null. *)
Theorem renderer_completes_iff_formatted_fields_are_numbers (stats : HealthSnapshot) :
  ((exists report, generateReport stats = Ok report) <->
   formatted_fields_are_numbers stats) /\
  generateReport (with_endpoints stats undefined) =
    generateReport (with_endpoints stats (val [])) /\
  generateReport (with_endpoints stats null) =
    generateReport (with_endpoints stats (val [])) /\
  (forall ep : EndpointStat,
     ep_success_rate ep = undefined \/ ep_success_rate ep = null ->
     endpoint_row ep =
       "| " ++ show_string (ep_name ep) ++ " | " ++ show_string (ep_provider ep) ++
       " | " ++ (if is_active (ep_status ep) then ":green_circle:" else ":yellow_circle:") ++
       " " ++ show_string (ep_status ep) ++ " | " ++ "N/A" ++ "% |" ++ nl) /\
  (forall report, generateReport stats = Ok report ->
     (endpoints_count stats = undefined ->
      includes "| Endpoints | undefined |" report = true) /\
     (endpoints_count stats = null ->
      includes "| Endpoints | null |" report = true)) /\
  (determineStatus (success_rate stats) (dlq_count stats) = "healthy" \/
   determineStatus (success_rate stats) (dlq_count stats) = "degraded" \/
   determineStatus (success_rate stats) (dlq_count stats) = "unhealthy") /\
  (forall d, determineStatus undefined d = "unhealthy") /\
  (forall d, determineStatus null d = "unhealthy").
Proof.
  split; [apply generateReport_Ok |].
  split; [reflexivity |]. split; [reflexivity |].
  split.
  { intros ep [Hr | Hr]; unfold endpoint_row; rewrite Hr; reflexivity. }
  split.
  { intros report Hreport.
    pose proof (generateReport_endpoints_count stats report Hreport) as Hline.
    split; intros Hcount; rewrite Hcount in Hline; exact Hline. }
  split.
  { unfold determineStatus.
    destruct (js_ge (success_rate stats) (num 99) &&
              js_strict_eq (dlq_count stats) (Number.of_Z 0)); [now left |].
    destruct (js_ge (success_rate stats) (num 90)); [right; now left | right; now right]. }
  split; intros d; reflexivity.
Qed.

End RendererFacts.

(** ** The orchestrator and the comments *)

Section RunComments.
Context `{Host}.









End RunComments.

(** ** The HTTP client *)

(** The race of the code is the race of the clock: the fetch is seen first
    exactly when it settles within the 30 seconds. *)
Lemma first_event_settles (x : exchange) :
  first_event default_timeout (settles_at x) = FetchSettles <-> settles_in_time x.
Proof.
  unfold first_event, settles_in_time. destruct (settles_at x) as [t |].
  - destruct (N.ltb_spec t default_timeout) as [Hlt | Hge]; split.
    + intros _. now exists t.
    + reflexivity.
    + discriminate.
    + intros (t' & [= <-] & Hlt). lia.
  - split; [discriminate | intros (t & Hnone & _); discriminate].
Qed.

Lemma first_event_fires (x : exchange) :
  first_event default_timeout (settles_at x) = TimerFires <-> ~ settles_in_time x.
Proof.
  rewrite <- first_event_settles.
  destruct (first_event default_timeout (settles_at x)); split; try discriminate; auto.
  intros Hno. now elim Hno.
Qed.

(** The health fetch throws exactly in the listed ways. *)
Lemma getHealthStats_fails_iff (network : request -> exchange)
    (apiUrl apiKey endpointId : string) (err : error) :
  getHealthStats network apiUrl apiKey endpointId = Throw err <->
  fetch_failure (network (health_request apiUrl apiKey endpointId)) err.
Proof.
  unfold getHealthStats, fetchWithTimeout, fetchWithTimeout_trace, await_fetch, arrives,
    health_request.
  set (x := network _). cbv [mbind result_bind].
  split.
  - destruct (first_event default_timeout (settles_at x)) eqn:Hev; cbn [fetched].
    + intros [= <-]. apply timed_out. now apply first_event_fires.
    + apply first_event_settles in Hev.
      destruct (outcome x) as [r | err'] eqn:Hout.
      * destruct (ok r) eqn:Hok; cbn [negb].
        -- intros Hj. now apply (malformed x r err).
        -- destruct (text r) as [t | err'] eqn:Ht.
           ++ intros [= <-]. now apply not_2xx.
           ++ intros [= <-]. now apply (not_2xx_unreadable x r).
      * intros [= <-]. now apply rejected.
  - intros [Hev | err' Hev Hout | r t [Hev Hout] Hok Ht
            | r err' [Hev Hout] Hok Ht | r err' [Hev Hout] Hok Hj];
      [apply first_event_fires in Hev | apply first_event_settles in Hev ..];
      rewrite Hev; cbn [fetched]; try rewrite Hout; try rewrite Hok; cbn [negb];
      try rewrite Ht; try reflexivity; exact Hj.
Qed.


(** ** Executing the orchestrator *)

Lemma getInput_optional (e : env) (key : string) :
  getInput e key false = Ok (input e key).
Proof. reflexivity. Qed.

Section RunFacts.
Context `{Host}.

(** Unfolds the monadic plumbing of [run], leaving the calls that can throw
    as the scrutinees of matches. *)
Ltac expose :=
  cbv beta iota zeta delta
    [run run_body try_catch mbind action_bind mret action_ret lift
     info warning debug write_log setOutput setFailed set_comments write_summary
     outputs failure log comments summary fst snd].

(** A run whose fetch succeeds on a snapshot with a numeric [success_rate]
    and a renderable report sets the eight outputs and goes on to publish. *)
Lemma run_reaches_outputs (e : env) (s : state) (apiKey : string)
    (stats : HealthSnapshot) (r : number) (report : string) :
  getInput e "api-key" true = Ok apiKey ->
  fetch_of e apiKey = Ok stats ->
  success_rate stats = val r ->
  generateReport stats = Ok report ->
  exists s1,
    run e s =
      try_catch (after_outputs e stats report)
                (fun error => setFailed ("Action failed: " ++ message error)) s1 /\
    outputs s1 = all_outputs stats (toFixed r 2) report (outputs s) /\
    failure s1 = failure s /\ comments s1 = comments s /\ summary s1 = summary s.
Proof.
  unfold fetch_of. intros Hkey Hfetch Hrate Hreport.
  destruct (negb (String.eqb (input e "endpoint-id") "")) eqn:Hid;
    (eexists (Build_state _ _ _ _ _); split;
     [ unfold after_outputs, publish_step, gate_step, gate_message; expose;
       rewrite Hkey, !getInput_optional; cbv beta iota;
       fold (apiUrl_of e); fold (failThreshold_of e);
       rewrite Hid, Hfetch; cbv beta iota; rewrite Hrate; unfold call; cbv beta iota;
       rewrite Hreport; cbv beta iota; reflexivity
     | unfold all_outputs; rewrite Hrate; repeat split; reflexivity ]).
Qed.

(** Publishing touches the comments and the log only. *)
Lemma publish_step_frame (e : env) (report : string) (s : state) :
  outputs (snd (publish_step e report s)) = outputs s /\
  failure (snd (publish_step e report s)) = failure s /\
  summary (snd (publish_step e report s)) = summary s.
Proof.
  unfold publish_step, postPRComment, listComments, updateComment, createComment.
  destruct (String.eqb (input e "post-comment") "true"); [| now repeat split].
  destruct (String.eqb (input e "github-token") ""); [now repeat split |].
  destruct (pull_request e); [| now repeat split].
  cbv [mbind action_bind mret action_ret api_call get_comments lift].
  destruct (listComments_error e); [now repeat split |].
  destruct (find_botComment (first_page (comments s))).
  - destruct (updateComment_error e); now repeat split.
  - destruct (createComment_error e); now repeat split.
Qed.

(** The job summary block never throws and touches the summary and the log
    only. *)
Lemma job_summary_frame (e : env) (status : string) (stats : HealthSnapshot) (s : state) :
  let m := try_catch (write_job_summary e status stats)
                     (fun _ => debug "Job summary not available") in
  fst (m s) = Ok tt /\
  outputs (snd (m s)) = outputs s /\
  failure (snd (m s)) = failure s /\
  comments (snd (m s)) = comments s.
Proof.
  cbv zeta. unfold write_job_summary, try_catch.
  cbv [mbind action_bind mret action_ret api_call lift call].
  destruct (success_rate stats); [now repeat split | now repeat split |].
  destruct (total_events stats); [now repeat split | now repeat split |].
  destruct (delivered_events stats); [now repeat split | now repeat split |].
  destruct (failed_events stats); [now repeat split | now repeat split |].
  destruct (dlq_count stats); [now repeat split | now repeat split |].
  destruct (endpoints_count stats); [now repeat split | now repeat split |].
  destruct (summary_error e); now repeat split.
Qed.

(** The threshold gate on a numeric success rate: it marks the run failed
    exactly when it is enabled and the rate is below the threshold. *)
Lemma gate_step_effect (e : env) (stats : HealthSnapshot) (r : number) (s : state) :
  success_rate stats = val r ->
  let fires := String.eqb (input e "fail-on-unhealthy") "true" &&
               js_lt (val r) (val (failThreshold_of e)) in
  fst (gate_step e stats s) = Ok tt /\
  outputs (snd (gate_step e stats s)) = outputs s /\
  comments (snd (gate_step e stats s)) = comments s /\
  failure (snd (gate_step e stats s)) =
    if fires then Some (gate_message (toFixed r 2) (failThreshold_of e)) else failure s.
Proof.
  intros Hrate. cbv zeta. unfold gate_step. rewrite Hrate.
  destruct (String.eqb (input e "fail-on-unhealthy") "true" &&
            js_lt (val r) (val (failThreshold_of e))); now repeat split.
Qed.

(** How a run that has set its outputs ends: by what publishing returns. *)
Lemma after_outputs_effect (e : env) (stats : HealthSnapshot) (r : number)
    (report : string) (s1 : state) :
  success_rate stats = val r ->
  let final := snd (try_catch (after_outputs e stats report)
                      (fun error => setFailed ("Action failed: " ++ message error)) s1) in
  outputs final = outputs s1 /\
  match fst (publish_step e report s1) with
  | Ok _ =>
      failure final =
        (if String.eqb (input e "fail-on-unhealthy") "true" &&
            js_lt (val r) (val (failThreshold_of e))
         then Some (gate_message (toFixed r 2) (failThreshold_of e))
         else failure s1) /\
      comments final = comments (snd (publish_step e report s1))
  | Throw err =>
      failure final = Some ("Action failed: " ++ message err) /\
      comments final = comments (snd (publish_step e report s1)) /\
      summary final = summary s1
  end.
Proof.
  intros Hrate. cbv zeta. unfold after_outputs, try_catch.
  cbv [mbind action_bind].
  pose proof (publish_step_frame e report s1) as (Po & Pf & Ps).
  destruct (publish_step e report s1) as [[[] | err] s2]; cbn [fst snd] in *.
  - pose proof (job_summary_frame e
      (determineStatus (success_rate stats) (dlq_count stats)) stats s2) as Hsum.
    cbv zeta in Hsum. unfold try_catch in Hsum.
    destruct (write_job_summary e _ stats s2) as [[[] | err] s3];
      cbv beta iota delta [debug write_log fst snd] in Hsum |- *;
      cbn [outputs failure comments] in Hsum; destruct Hsum as (_ & So & Sf & Sc);
      match goal with
      | |- context [gate_step e stats ?s3'] =>
          pose proof (gate_step_effect e stats r s3' Hrate) as (Gr & Go & Gc & Gf);
          cbv zeta in Gf; destruct (gate_step e stats s3') as [[[] | gerr] s4]
      end; cbn [fst snd outputs failure comments] in *; try discriminate;
      repeat split; rewrite ?Gf, ?Go, ?Gc, ?So, ?Sf, ?Sc, ?Po, ?Pf; reflexivity.
  - cbn [setFailed snd outputs failure comments summary]. repeat split; assumption.
Qed.

Lemma all_outputs_lookup (stats : HealthSnapshot) (rate report : string)
    (o : gmap string out_value) :
  let m := all_outputs stats rate report o in
  m !! "status" = Some (out_string (determineStatus (success_rate stats) (dlq_count stats))) /\
  m !! "success-rate" = Some (out_string rate) /\
  m !! "total-events" = Some (out_number (total_events stats)) /\
  m !! "delivered-events" = Some (out_number (delivered_events stats)) /\
  m !! "failed-events" = Some (out_number (failed_events stats)) /\
  m !! "dlq-count" = Some (out_number (dlq_count stats)) /\
  m !! "endpoints-checked" = Some (out_number (endpoints_count stats)) /\
  m !! "report" = Some (out_string report).
Proof.
  cbv zeta. unfold all_outputs.
  repeat split; repeat (rewrite lookup_insert_ne by discriminate);
    apply lookup_insert_eq.
Qed.

(** C3, as the code has it. After a successful fetch of a snapshot whose
    formatted statistics are numbers, and when publishing the comment (if it
    is attempted) does not throw: all eight outputs are set; with
    [fail-on-unhealthy] enabled and the success rate below the threshold
    the run is marked failed with a message naming the rate as
    [toFixed(2)] writes it (with two decimals for every finite rate of
    magnitude below 1e21) and the threshold; when the gate does not fire
    the run is not marked failed, whatever the status. *)
Theorem threshold_gate_decides_the_run
    (e : env) (s : state) (apiKey : string) (stats : HealthSnapshot) (r : number) :
  getInput e "api-key" true = Ok apiKey ->
  fetch_of e apiKey = Ok stats ->
  formatted_fields_are_numbers stats ->
  success_rate stats = val r ->
  (forall report s0, comments s0 = comments s ->
     fst (publish_step e report s0) = Ok tt) ->
  let final := snd (run e s) in
  let fires := String.eqb (input e "fail-on-unhealthy") "true" &&
               js_lt (val r) (val (failThreshold_of e)) in
  exists report,
    generateReport stats = Ok report /\
    (outputs final !! "status" =
       Some (out_string (determineStatus (success_rate stats) (dlq_count stats))) /\
     outputs final !! "success-rate" = Some (out_string (toFixed r 2)) /\
     outputs final !! "total-events" = Some (out_number (total_events stats)) /\
     outputs final !! "delivered-events" = Some (out_number (delivered_events stats)) /\
     outputs final !! "failed-events" = Some (out_number (failed_events stats)) /\
     outputs final !! "dlq-count" = Some (out_number (dlq_count stats)) /\
     outputs final !! "endpoints-checked" = Some (out_number (endpoints_count stats)) /\
     outputs final !! "report" = Some (out_string report)) /\
    (failure final =
      if fires then
        Some ("Webhook health check failed: success rate " ++ toFixed r 2 ++
              "% is below threshold " ++ Number_toString (failThreshold_of e) ++ "%")
      else failure s) /\
    (fixed_range r -> has_fraction_digits (toFixed r 2) 2).
Proof.
  intros Hkey Hfetch Hnum Hrate Hpub. cbv zeta.
  apply generateReport_Ok in Hnum as [report Hreport].
  destruct (run_reaches_outputs e s apiKey stats r report Hkey Hfetch Hrate Hreport)
    as (s1 & -> & Ho & Hf & Hc & _).
  pose proof (after_outputs_effect e stats r report s1 Hrate) as [Eo Hend].
  cbv zeta in Eo, Hend. rewrite (Hpub report s1 Hc) in Hend. destruct Hend as [Ef _].
  exists report. split; [exact Hreport |]. rewrite Eo, Ho, Ef, Hf.
  split; [apply all_outputs_lookup |]. split; [reflexivity |].
  now apply toFixed_fraction.
Qed.

(** C2, as the code has it. An error thrown while publishing the comment is
    not caught locally: it reaches the handler of [run], which marks the run
    failed with that error's message whatever the threshold gate would have
    decided; the eight outputs set before keep their values and no job
    summary is written. *)
Theorem publish_failure_fails_run_keeps_outputs
    (e : env) (s : state) (apiKey : string) (stats : HealthSnapshot) (r : number)
    (report : string) (err : error) :
  getInput e "api-key" true = Ok apiKey ->
  fetch_of e apiKey = Ok stats ->
  success_rate stats = val r ->
  generateReport stats = Ok report ->
  (forall s0, comments s0 = comments s ->
     fst (publish_step e report s0) = Throw err) ->
  let final := snd (run e s) in
  failure final = Some ("Action failed: " ++ message err) /\
  outputs final = all_outputs stats (toFixed r 2) report (outputs s) /\
  summary final = summary s.
Proof.
  intros Hkey Hfetch Hrate Hreport Hpub. cbv zeta.
  destruct (run_reaches_outputs e s apiKey stats r report Hkey Hfetch Hrate Hreport)
    as (s1 & -> & Ho & Hf & Hc & Hs).
  pose proof (after_outputs_effect e stats r report s1 Hrate) as [Eo Hend].
  cbv zeta in Eo, Hend. rewrite (Hpub s1 Hc) in Hend. destruct Hend as (Ef & _ & Es).
  rewrite Eo, Ef, Es. repeat split; assumption.
Qed.

Lemma job_summary_log (e : env) (status : string) (stats : HealthSnapshot) (s : state) :
  exists l,
    log (snd (try_catch (write_job_summary e status stats)
                        (fun _ => debug "Job summary not available") s)) =
    (log s ++ l)%list.
Proof.
  unfold write_job_summary, try_catch.
  cbv [mbind action_bind mret action_ret api_call lift call].
  destruct (success_rate stats); [eexists; reflexivity | eexists; reflexivity |].
  destruct (total_events stats); [eexists; reflexivity | eexists; reflexivity |].
  destruct (delivered_events stats); [eexists; reflexivity | eexists; reflexivity |].
  destruct (failed_events stats); [eexists; reflexivity | eexists; reflexivity |].
  destruct (dlq_count stats); [eexists; reflexivity | eexists; reflexivity |].
  destruct (endpoints_count stats); [eexists; reflexivity | eexists; reflexivity |].
  destruct (summary_error e); [eexists; reflexivity |].
  exists []. cbn. now rewrite app_nil_r.
Qed.

Lemma gate_step_log (e : env) (stats : HealthSnapshot) (r : number) (s : state) :
  success_rate stats = val r ->
  exists l, log (snd (gate_step e stats s)) = (log s ++ l)%list.
Proof.
  intros Hrate. unfold gate_step. rewrite Hrate.
  destruct (String.eqb (input e "fail-on-unhealthy") "true" &&
            js_lt (val r) (val (failThreshold_of e))).
  - eexists. reflexivity.
  - exists []. cbn. now rewrite app_nil_r.
Qed.

(** What publishing logged is still in the log when the run ends. *)
Lemma after_outputs_log (e : env) (stats : HealthSnapshot) (r : number)
    (report : string) (s1 : state) :
  success_rate stats = val r ->
  fst (publish_step e report s1) = Ok tt ->
  exists l,
    log (snd (try_catch (after_outputs e stats report)
                (fun error => setFailed ("Action failed: " ++ message error)) s1)) =
    (log (snd (publish_step e report s1)) ++ l)%list.
Proof.
  intros Hrate Hpub. unfold after_outputs. unfold try_catch at 1.
  cbv [mbind action_bind].
  destruct (publish_step e report s1) as [[[] | err] s2]; [| discriminate].
  cbn [snd]. cbv beta iota.
  destruct (job_summary_log e
    (determineStatus (success_rate stats) (dlq_count stats)) stats s2) as [l1 Hl1].
  pose proof (job_summary_frame e
    (determineStatus (success_rate stats) (dlq_count stats)) stats s2) as [Hr _].
  cbv zeta in Hr.
  destruct (try_catch (write_job_summary e _ stats) _ s2) as [[[] | err] s3];
    [| discriminate].
  cbn [snd] in Hl1. cbv beta iota.
  destruct (gate_step_log e stats r s3 Hrate) as [l2 Hl2].
  pose proof (gate_step_effect e stats r s3 Hrate) as [Gr _].
  destruct (gate_step e stats s3) as [[[] | err] s4]; [| discriminate].
  cbn [snd] in *. exists (l1 ++ l2)%list. now rewrite Hl2, Hl1, app_assoc.
Qed.

(** C4, as the code has it. When a comment is requested but no
    [github-token] is given, and the run reaches the publishing step (the
    [api-key] is given, the fetch succeeds and the statistics the report
    formats are numbers, so that the report is rendered), the run is not
    failed for it: it logs a warning, leaves the comments of the pull
    request alone, and is marked failed exactly when the threshold gate
    fires. *)
Theorem missing_token_warns_and_skips_publishing
    (e : env) (s : state) (apiKey : string) (stats : HealthSnapshot) (r : number) :
  getInput e "api-key" true = Ok apiKey ->
  fetch_of e apiKey = Ok stats ->
  formatted_fields_are_numbers stats ->
  success_rate stats = val r ->
  input e "post-comment" = "true" ->
  input e "github-token" = "" ->
  let final := snd (run e s) in
  (LWarning, "github-token is required to post PR comments") ∈ log final /\
  comments final = comments s /\
  failure final =
    if String.eqb (input e "fail-on-unhealthy") "true" &&
       js_lt (val r) (val (failThreshold_of e))
    then Some (gate_message (toFixed r 2) (failThreshold_of e))
    else failure s.
Proof.
  intros Hkey Hfetch Hnum Hrate Hpost Htoken. cbv zeta.
  apply generateReport_Ok in Hnum as [report Hreport].
  destruct (run_reaches_outputs e s apiKey stats r report Hkey Hfetch Hrate Hreport)
    as (s1 & -> & Ho & Hf & Hc & _).
  assert (Hstep : publish_step e report s1 =
                  warning "github-token is required to post PR comments" s1).
  { unfold publish_step. now rewrite Hpost, Htoken. }
  pose proof (after_outputs_effect e stats r report s1 Hrate) as [_ Hend].
  destruct (after_outputs_log e stats r report s1 Hrate) as [l Hl].
  { now rewrite Hstep. }
  cbv zeta in Hend. rewrite Hstep in Hend, Hl. cbn [fst snd warning write_log] in Hend, Hl.
  destruct Hend as [Ef Ec]. rewrite Ef, Ec, Hl, Hf. cbn [log comments].
  split; [| split; [exact Hc | reflexivity]].
  rewrite !elem_of_app. left. right. apply list_elem_of_singleton. reflexivity.
Qed.

(** *** A threshold that does not parse *)


Lemma bind_ext {A B : Type} (m : action A) (f g : A -> action B) (s : state) :
  (forall a s', f a s' = g a s') -> (m ≫= f) s = (m ≫= g) s.
Proof.
  intros Hfg. cbv [mbind action_bind]. destruct (m s) as [[a | err] s']; [apply Hfg | reflexivity].
Qed.

Lemma bind_lift_Ok {A B : Type} (a : A) (f : A -> action B) (s : state) :
  (lift (Ok a) ≫= f) s = f a s.
Proof. reflexivity. Qed.

Lemma input_with_input_ne (e : env) (key v other : string) :
  key <> other -> input (with_input e key v) other = input e other.
Proof. intros Hne. unfold input, with_input. cbn [inputs]. now rewrite lookup_insert_ne. Qed.

Lemma getInput_with_input_ne (e : env) (key v other : string) (required : bool) :
  key <> other -> getInput (with_input e key v) other required = getInput e other required.
Proof. intros Hne. unfold getInput, with_input. cbn [inputs]. now rewrite lookup_insert_ne. Qed.

Lemma input_with_input_eq (e : env) (key v : string) :
  input (with_input e key v) key = trim v.
Proof. unfold input, with_input. cbn [inputs]. now rewrite lookup_insert_eq. Qed.


(** C5. When the health fetch fails (the request timed out, the response
    was not 2xx, or its body could not be read or parsed) the run is marked
    failed with the message of that error, and no output is set: the
    outputs are the ones the run started with. *)
Theorem fetch_failure_fails_run_without_outputs
    (e : env) (s : state) (apiKey : string) (err : error) :
  getInput e "api-key" true = Ok apiKey ->
  fetch_failure
    (network e (health_request (apiUrl_of e) apiKey (input e "endpoint-id"))) err ->
  fst (run e s) = Ok tt /\
  failure (snd (run e s)) = Some ("Action failed: " ++ message err) /\
  outputs (snd (run e s)) = outputs s /\
  comments (snd (run e s)) = comments s.
Proof.
  intros Hkey Hfetch. apply getHealthStats_fails_iff in Hfetch. expose.
  rewrite Hkey, !getInput_optional. cbv beta iota.
  fold (apiUrl_of e).
  destruct (negb (String.eqb (input e "endpoint-id") "")); rewrite Hfetch;
    repeat split; reflexivity.
Qed.

End RunFacts.

(* ===================================================================== *)
(** * The scenarios of the specification, on Node *)

Section Scenarios.
#[local] Existing Instance Node.host.

(** Scenario A: a healthy upstream. *)
Example scenario_A_run :
  failure (final healthy_env []) = None /\
  outputs (final healthy_env []) !! "status" = Some (out_string "healthy") /\
  outputs (final healthy_env []) !! "success-rate" = Some (out_string "99.50") /\
  outputs (final healthy_env []) !! "dlq-count" = Some (out_number (json_number "0")).
Proof. vm_compute. repeat split. Qed.

(** Scenario B, and the boundaries of the classifier. *)
Example scenario_B_classify :
  determineStatus (json_number "92.0") (json_number "3") = "degraded" /\
  determineStatus (json_number "99") (json_number "0") = "healthy" /\
  determineStatus (json_number "98.99") (json_number "0") = "degraded" /\
  determineStatus (json_number "100") (json_number "1") = "degraded" /\
  determineStatus (json_number "90") (json_number "0") = "degraded" /\
  determineStatus (json_number "89.99") (json_number "0") = "unhealthy" /\
  determineStatus (val NaN) (json_number "0") = "unhealthy" /\
  determineStatus (json_number "Infinity") (json_number "-0") = "healthy".
Proof. vm_compute. repeat split. Qed.

(** What [parseFloat] makes of some [fail-threshold] inputs. *)
Example parseFloat_samples :
  parseFloat "90" = S754_finite false 6333186975989760 (-46) /\
  Number.equal (parseFloat "90") (Number.of_Z 90) = true /\
  Number.equal (parseFloat " 95.5%") (parseFloat "955e-1") = true /\
  parseFloat "-0" = S754_zero true /\
  parseFloat "1e400" = S754_infinity false /\
  parseFloat "ninety" = NaN /\
  parseFloat "%90" = NaN /\
  parseFloat "." = NaN /\
  parseFloat "" = NaN.
Proof. vm_compute. repeat split. Qed.

(** [toFixed(2)] and the host's conversions on some rates. *)
Example number_printing_samples :
  toFixed (parseFloat "80") 2 = "80.00" /\
  toFixed (parseFloat "99.5") 2 = "99.50" /\
  toFixed (parseFloat "1.005") 2 = "1.00" /\
  toFixed (parseFloat "0.125") 2 = "0.13" /\
  toFixed (parseFloat "-0.001") 2 = "-0.00" /\
  toFixed (parseFloat "1e21") 2 = "1e+21" /\
  toFixed (parseFloat "-Infinity") 2 = "-Infinity" /\
  Number_toString (parseFloat "0.1") = "0.1" /\
  Number_toString (parseFloat "123456789012345680000") = "123456789012345680000" /\
  Number_toString (parseFloat "5e-324") = "5e-324" /\
  Number_toLocaleString (parseFloat "1234567.891") = "1,234,567.891".
Proof. vm_compute. repeat split. Qed.

(** Printing at the edges: of two shortest decimals equally close to the
    number the even one is printed, and [toLocaleString] rounds the decimal
    that [toString] prints, halves upwards. *)
Example number_printing_ties :
  Number_toString (S754_finite false (2 ^ 52 + 1) (-2)) = "1125899906842624.2" /\
  Number_toString (S754_finite false (2 ^ 52 + 3) (-2)) = "1125899906842624.8" /\
  toFixed (parseFloat "1.0005") 3 = "1.000" /\
  Number_toLocaleString (parseFloat "1.0005") = "1.001" /\
  Number_toLocaleString (parseFloat "999.9996") = "1,000" /\
  Number_toLocaleString (parseFloat "-1234.5678") = "-1,234.568".
Proof. vm_compute. repeat split. Qed.

(** Scenario F: the upstream never answers. *)
Example scenario_F_run :
  failure (final hanging_env []) = Some "Action failed: This operation was aborted" /\
  outputs (final hanging_env []) = ∅.
Proof. vm_compute. repeat split. Qed.

(** Scenario E: three runs on a pull request without a health comment leave
    one health comment, after the comment that was there. *)
Example scenario_E_runs :
  let cs := comments (runs [commenting_env; commenting_env; commenting_env]
                           (initial [ {| id := 101; body := "LGTM" |} ])) in
  map id cs = [101; 102]%Z /\ health_comments cs = 1%nat.
Proof. vm_compute. repeat split. Qed.

(** C7 as stated fails: a response without [total_events] makes the
    renderer throw. *)
Lemma renderer_throws_without_total_events :
  generateReport without_total_events =
  Throw (TypeError "Cannot read properties of undefined (reading 'toLocaleString')").
Proof. reflexivity. Qed.

(** C2 as stated fails: with the gate disabled, a healthy upstream and a
    token GitHub rejects, the error of the comment API is not logged as a
    warning: it marks the run failed. *)
Lemma publish_failure_marks_run_failed :
  input rejected_token_env "fail-on-unhealthy" = "" /\
  failure (final rejected_token_env []) = Some "Action failed: Bad credentials" /\
  List.filter (fun entry => match fst entry with LWarning => true | _ => false end)
              (log (final rejected_token_env [])) = [].
Proof. vm_compute. repeat split. Qed.

(** C3 as stated fails: with the gate enabled and a success rate of 80
    below the threshold of 90, the failure message names neither when the
    comment API or the renderer throws first; in the second case the
    [report] output is not set either. *)
Lemma gate_message_preempted :
  (js_lt (success_rate scenario_C) (val (failThreshold_of gated_rejected_token_env)) = true /\
   failure (final gated_rejected_token_env []) = Some "Action failed: Bad credentials" /\
   includes "80.00" "Action failed: Bad credentials" = false) /\
  (js_lt (success_rate without_total_events)
         (val (failThreshold_of gated_incomplete_env)) = true /\
   failure (final gated_incomplete_env []) =
     Some "Action failed: Cannot read properties of undefined (reading 'toLocaleString')" /\
   outputs (final gated_incomplete_env []) !! "report" = None).
Proof. vm_compute. repeat split. Qed.

(** C4 as stated fails: a comment requested without a token does not fail
    the run. *)
Lemma missing_token_does_not_fail_run :
  input no_token_env "post-comment" = "true" /\
  input no_token_env "github-token" = "" /\
  failure (final no_token_env []) = None.
Proof. vm_compute. repeat split. Qed.

(** Scenario D: a response with status 500 and the body "internal error"
    fails the run and sets no output. *)
Lemma scenario_D_fetch_failure :
  getInput failing_env "api-key" true = Ok "secret" /\
  fetch_failure
    (network failing_env
       (health_request (apiUrl_of failing_env) "secret" (input failing_env "endpoint-id")))
    (Error "API request failed: 500 - internal error") /\
  failure (final failing_env []) =
    Some "Action failed: API request failed: 500 - internal error" /\
  outputs (final failing_env []) = ∅.
Proof.
  assert (Hkey : getInput failing_env "api-key" true = Ok "secret") by reflexivity.
  assert (Hfail : fetch_failure
    (network failing_env
       (health_request (apiUrl_of failing_env) "secret" (input failing_env "endpoint-id")))
    (Error "API request failed: 500 - internal error")).
  { refine (not_2xx _ {| status := 500; body_takes := 0; text := Ok "internal error";
                         json := Throw _ |}
              "internal error" _ _ _);
      [split; [exists 80%N; split |] |..]; reflexivity. }
  destruct (fetch_failure_fails_run_without_outputs
              failing_env (initial []) "secret" _ Hkey Hfail) as (_ & Hf & Ho & _).
  exact (conj Hkey (conj Hfail (conj Hf Ho))).
Defined.

(** Scenario C: at 80% against a threshold of 90 the gate fires, and the
    outputs are set all the same. *)
Lemma scenario_C_gate_fires :
  getInput gated_env "api-key" true = Ok "secret" /\
  fetch_of gated_env "secret" = Ok scenario_C /\
  formatted_fields_are_numbers scenario_C /\
  success_rate scenario_C = json_number "80.0" /\
  (forall report s0, comments s0 = comments (initial []) ->
     fst (publish_step gated_env report s0) = Ok tt) /\
  failure (final gated_env []) =
    Some "Webhook health check failed: success rate 80.00% is below threshold 90%" /\
  outputs (final gated_env []) !! "status" = Some (out_string "unhealthy") /\
  outputs (final gated_env []) !! "success-rate" = Some (out_string "80.00").
Proof.
  assert (Hkey : getInput gated_env "api-key" true = Ok "secret") by reflexivity.
  assert (Hfetch : fetch_of gated_env "secret" = Ok scenario_C) by reflexivity.
  assert (Hnum : formatted_fields_are_numbers scenario_C)
    by (repeat split; eexists; reflexivity).
  assert (Hrate : success_rate scenario_C = json_number "80.0") by reflexivity.
  assert (Hpub : forall report s0, comments s0 = comments (initial []) ->
                   fst (publish_step gated_env report s0) = Ok tt)
    by (intros report s0 _; reflexivity).
  destruct (threshold_gate_decides_the_run gated_env (initial []) "secret" scenario_C
              (parseFloat "80.0") Hkey Hfetch Hnum Hrate Hpub)
    as (report & _ & (Hstatus & Hsr & _) & Hf & _).
  exact (conj Hkey (conj Hfetch (conj Hnum (conj Hrate (conj Hpub
           (conj Hf (conj Hstatus Hsr))))))).
Defined.

(** A token GitHub rejects fails the run of a healthy upstream; the outputs
    stay, no summary is written. *)
Lemma rejected_token_run :
  getInput rejected_token_env "api-key" true = Ok "secret" /\
  fetch_of rejected_token_env "secret" = Ok scenario_A /\
  success_rate scenario_A = json_number "99.5" /\
  (exists report,
     generateReport scenario_A = Ok report /\
     forall s0, comments s0 = comments (initial []) ->
       fst (publish_step rejected_token_env report s0) = Throw bad_credentials) /\
  failure (final rejected_token_env []) = Some "Action failed: Bad credentials" /\
  outputs (final rejected_token_env []) !! "status" = Some (out_string "healthy") /\
  summary (final rejected_token_env []) = None.
Proof.
  assert (Hkey : getInput rejected_token_env "api-key" true = Ok "secret") by reflexivity.
  assert (Hfetch : fetch_of rejected_token_env "secret" = Ok scenario_A) by reflexivity.
  assert (Hreport : exists report, generateReport scenario_A = Ok report)
    by (eexists; reflexivity).
  destruct Hreport as [report Hreport].
  assert (Hpub : forall s0, comments s0 = comments (initial []) ->
                   fst (publish_step rejected_token_env report s0) = Throw bad_credentials)
    by (intros s0 _; reflexivity).
  destruct (publish_failure_fails_run_keeps_outputs rejected_token_env (initial []) "secret"
              scenario_A (parseFloat "99.5") report bad_credentials
              Hkey Hfetch eq_refl Hreport Hpub)
    as (Hf & Ho & Hs).
  refine (conj Hkey (conj Hfetch (conj eq_refl
            (conj (ex_intro _ report (conj Hreport Hpub)) (conj Hf (conj _ Hs)))))).
  unfold final. rewrite Ho. apply all_outputs_lookup.
Defined.

(** A comment requested without a token: a warning, and no failure. *)
Lemma no_token_run :
  getInput no_token_env "api-key" true = Ok "secret" /\
  fetch_of no_token_env "secret" = Ok scenario_A /\
  formatted_fields_are_numbers scenario_A /\
  success_rate scenario_A = json_number "99.5" /\
  input no_token_env "post-comment" = "true" /\
  input no_token_env "github-token" = "" /\
  (LWarning, "github-token is required to post PR comments") ∈ log (final no_token_env []) /\
  failure (final no_token_env []) = None.
Proof.
  assert (Hkey : getInput no_token_env "api-key" true = Ok "secret") by reflexivity.
  assert (Hfetch : fetch_of no_token_env "secret" = Ok scenario_A) by reflexivity.
  assert (Hnum : formatted_fields_are_numbers scenario_A)
    by (repeat split; eexists; reflexivity).
  destruct (missing_token_warns_and_skips_publishing no_token_env (initial []) "secret"
              scenario_A (parseFloat "99.5") Hkey Hfetch Hnum eq_refl eq_refl eq_refl)
    as (Hw & _ & Hf).
  exact (conj Hkey (conj Hfetch (conj Hnum (conj eq_refl (conj eq_refl (conj eq_refl
           (conj Hw Hf))))))).
Defined.


End Scenarios.



(** C9 as stated fails: the first comment of the pull request that holds
    the phrase is comment 31, beyond the page the listing returns; it is
    left as it is and the report is appended as comment 32. *)
Lemma mention_beyond_first_page_survives :
  find_botComment crowded_with_mention =
    Some {| id := 31;
            body := "Please read the EventDock Webhook Health Report before merging." |} /\
  fst (postPRComment commenting_env "ghs_valid" "new report"
         (initial crowded_with_mention)) = Ok tt /\
  comments (snd (postPRComment commenting_env "ghs_valid" "new report"
                   (initial crowded_with_mention))) =
    (crowded_with_mention ++ [ {| id := 32; body := "new report" |} ])%list.
Proof. vm_compute. repeat split. Qed.

(** The comment of a reviewer who named the report is overwritten. *)
Lemma human_comment_overwritten :
  pull_request commenting_env = Some 7%Z /\
  listComments_error commenting_env = None /\
  updateComment_error commenting_env = None /\
  (length [ {| id := 101; body := "LGTM" |} ] < per_page)%nat /\
  NoDup (map id human_comments) /\
  includes marker "LGTM" = false /\
  "Please read the EventDock Webhook Health Report before merging." =
    "Please read the " ++ marker ++ " before merging." /\
  comments (snd (postPRComment commenting_env "ghs_valid" "new report"
                   (initial human_comments))) =
    [ {| id := 101; body := "LGTM" |};
      {| id := 102; body := "new report" |};
      {| id := 103; body := "Merging tomorrow." |} ].
Proof.
  assert (Hnd : NoDup (map id human_comments))
    by compute_done.
  assert (Hlen : (length [ {| id := 101; body := "LGTM" |} ] < per_page)%nat)
    by (unfold per_page; simpl; lia).
  destruct (marker_scan_overwrites_first_match commenting_env "ghs_valid" "new report"
              (initial human_comments) 7
              [ {| id := 101; body := "LGTM" |} ]
              [ {| id := 103; body := "Merging tomorrow." |} ]
              {| id := 102;
                 body := "Please read the EventDock Webhook Health Report before merging." |}
              "Please read the " " before merging."
              eq_refl eq_refl eq_refl eq_refl Hlen Hnd)
    as (_ & _ & Hcs).
  { repeat constructor. }
  { reflexivity. }
  exact (conj eq_refl (conj eq_refl (conj eq_refl (conj Hlen (conj Hnd (conj eq_refl
           (conj eq_refl Hcs))))))).
Defined.



(* ===================================================================== *)
(** * Further properties of the code *)

(** ** The classifier and its marker *)

Lemma determineStatus_cases (a b : opt number) :
  determineStatus a b = "healthy" \/ determineStatus a b = "degraded" \/
  determineStatus a b = "unhealthy".
Proof.
  unfold determineStatus.
  destruct (js_ge a (num 99) && js_strict_eq b (Number.of_Z 0)); [now left |].
  destruct (js_ge a (num 90)); [right; now left | right; now right].
Qed.

(** X1. The marker chosen for a classified snapshot is never the fallback
    ":question:", and it tells the three statuses apart: two snapshots with
    the same marker have the same status. *)
Theorem status_marker_never_fallback (a b a' b' : opt number) :
  getStatusEmoji (determineStatus a b) <> ":question:" /\
  (getStatusEmoji (determineStatus a b) = getStatusEmoji (determineStatus a' b') <->
   determineStatus a b = determineStatus a' b').
Proof.
  destruct (determineStatus_cases a b) as [-> | [-> | ->]],
           (determineStatus_cases a' b') as [-> | [-> | ->]];
    (split; [discriminate | split; intros E; (reflexivity || discriminate E)]).
Qed.

Lemma js_ge_trans_at_least (x y : number) (b : Z) :
  js_ge (val y) (val x) = true -> at_least x b -> at_least y b.
Proof.
  unfold js_ge. cbn [ToNumber].
  destruct y as [sy | [|] | | sy my ey], x as [sx | [|] | | sx mx ex];
    cbn [Number.lessThan at_least]; try discriminate; try tauto; try congruence;
    (destruct (Number.Qltb _ _) eqn:E; [discriminate |]);
    intros _ Hb; apply Qltb_false_iff in E; exact (Qle_trans _ _ _ Hb E).
Qed.

(** X2. The classifier is monotone in the success rate: with the same
    dead-letter count, a rate at least as high is never classified worse. *)
Theorem determineStatus_monotone (x y : number) (dlqCount : opt number) :
  js_ge (val y) (val x) = true ->
  (determineStatus (val x) dlqCount = "healthy" ->
   determineStatus (val y) dlqCount = "healthy") /\
  (determineStatus (val y) dlqCount = "unhealthy" ->
   determineStatus (val x) dlqCount = "unhealthy").
Proof.
  intros Hge.
  pose proof (js_ge_trans_at_least x y 99 Hge) as M99.
  pose proof (js_ge_trans_at_least x y 90 Hge) as M90.
  pose proof (js_ge_at_least x 99) as X99. pose proof (js_ge_at_least x 90) as X90.
  pose proof (js_ge_at_least y 99) as Y99. pose proof (js_ge_at_least y 90) as Y90.
  pose proof (at_least_mono y 90 99 ltac:(lia)) as Ym.
  unfold determineStatus.
  destruct (js_ge (val x) (num 99)), (js_ge (val x) (num 90)),
           (js_ge (val y) (num 99)), (js_ge (val y) (num 90)),
           (js_strict_eq dlqCount (Number.of_Z 0));
    settle X99; settle X90; settle Y99; settle Y90; cbn [andb];
    split; intros; try discriminate; try reflexivity; exfalso; tauto.
Qed.

(** Upwards from a healthy 99.2 to 99.5, and downwards from an unhealthy
    85 to 80, with an empty dead-letter queue. *)
Lemma determineStatus_monotone_witness :
  (js_ge (json_number "99.5") (json_number "99.2") = true /\
   determineStatus (json_number "99.2") (num 0) = "healthy" /\
   determineStatus (json_number "99.5") (num 0) = "healthy") /\
  (js_ge (json_number "85") (json_number "80") = true /\
   determineStatus (json_number "85") (num 0) = "unhealthy" /\
   determineStatus (json_number "80") (num 0) = "unhealthy").
Proof.
  assert (Hup : js_ge (json_number "99.5") (json_number "99.2") = true)
    by (vm_compute; reflexivity).
  assert (Hlow : determineStatus (json_number "99.2") (num 0) = "healthy")
    by (vm_compute; reflexivity).
  assert (Hdown : js_ge (json_number "85") (json_number "80") = true)
    by (vm_compute; reflexivity).
  assert (Hhigh : determineStatus (json_number "85") (num 0) = "unhealthy")
    by (vm_compute; reflexivity).
  split.
  - exact (conj Hup (conj Hlow
             (proj1 (determineStatus_monotone (parseFloat "99.2") (parseFloat "99.5") (num 0) Hup)
                    Hlow))).
  - exact (conj Hdown (conj Hhigh
             (proj2 (determineStatus_monotone (parseFloat "80") (parseFloat "85") (num 0) Hdown)
                    Hhigh))).
Defined.

(** ** The default threshold and the classifier *)

Lemma parseFloat_90 : parseFloat "90" = S754_finite false 6333186975989760 (-46).
Proof. vm_compute. reflexivity. Qed.

(** Against the parsed default threshold, a number compares as against the
    integer 90 of the classifier. *)
Lemma js_lt_default_threshold (r : number) :
  js_lt (val r) (val (parseFloat "90")) =
  match r with S754_nan => false | _ => negb (js_ge (val r) (num 90)) end.
Proof.
  rewrite parseFloat_90. unfold js_lt, js_ge, num. cbn [ToNumber].
  destruct r as [s | [|] | | s m e]; try reflexivity.
  cbn [Number.lessThan Number.of_Z]. unfold Number.Qltb.
  assert (E : (Number.real (S754_finite false 6333186975989760 (-46)) ==
               Number.real (S754_finite false 90 0))%Q) by (vm_compute; reflexivity).
  rewrite (Qcompare_comp _ _ (Qeq_refl (Number.real (S754_finite s m e))) _ _ E).
  now destruct (Qcompare _ _).
Qed.

Lemma unhealthy_iff (a b : opt number) :
  determineStatus a b = "unhealthy" <-> js_ge a (num 90) = false.
Proof.
  unfold determineStatus.
  destruct (js_ge a (num 99)) eqn:E99, (js_ge a (num 90)) eqn:E90,
           (js_strict_eq b (Number.of_Z 0)); cbn [andb];
    split; intros X; try discriminate X; try reflexivity.
  all: exfalso; destruct a as [| | x]; try discriminate E99.
  all: apply js_ge_at_least in E99;
       apply (at_least_mono x 90 99 ltac:(lia)), js_ge_at_least in E99; congruence.
Qed.

Section DefaultThreshold.
Context `{Host}.

(** X3. When no [fail-threshold] is given the gate compares against the
    parsed default "90", and that comparison agrees with the classifier: on a
    numeric success rate it is true exactly when the status is "unhealthy"
    and the rate is not NaN.  The gate then marks the run failed exactly
    when it is enabled and the snapshot is unhealthy with a rate other than
    NaN; a NaN rate is classified unhealthy and never fails the run. *)
Theorem default_threshold_gate_fires_iff_unhealthy
    (e : env) (stats : HealthSnapshot) (r : number) (s : state) :
  input e "fail-threshold" = "" ->
  success_rate stats = val r ->
  let status := determineStatus (success_rate stats) (dlq_count stats) in
  failThreshold_of e = parseFloat "90" /\
  (js_lt (success_rate stats) (val (failThreshold_of e)) = true <->
   status = "unhealthy" /\ r <> NaN) /\
  failure (snd (gate_step e stats s)) =
    (if String.eqb (input e "fail-on-unhealthy") "true" && String.eqb status "unhealthy" &&
        negb (is_NaN r)
     then Some (gate_message (toFixed r 2) (parseFloat "90"))
     else failure s).
Proof.
  intros Hthr Hrate status.
  assert (Ht : failThreshold_of e = parseFloat "90")
    by (unfold failThreshold_of; now rewrite Hthr).
  assert (Hcmp : js_lt (val r) (val (parseFloat "90")) =
                 String.eqb status "unhealthy" && negb (is_NaN r)).
  { rewrite js_lt_default_threshold. subst status. rewrite Hrate.
    pose proof (unhealthy_iff (val r) (dlq_count stats)) as U.
    destruct (String.eqb_spec (determineStatus (val r) (dlq_count stats)) "unhealthy") as [E | E].
    - apply U in E. rewrite E. now destruct r.
    - destruct (js_ge (val r) (num 90)); [now destruct r | exfalso; apply E, U; reflexivity]. }
  split; [exact Ht | split].
  - rewrite Ht, Hrate, Hcmp. fold status.
    rewrite andb_true_iff, negb_true_iff.
    destruct (String.eqb_spec status "unhealthy") as [E | E], r; cbn [is_NaN];
      intuition (try discriminate; try congruence).
  - pose proof (gate_step_effect e stats r s Hrate) as G. cbv zeta in G.
    destruct G as (_ & _ & _ & Gf). rewrite Gf, Ht, Hcmp, andb_assoc. reflexivity.
Qed.

End DefaultThreshold.

(** Scenario C under the default threshold: the gate fires at 80.00%. *)
Lemma default_threshold_gate_witness :
  input default_gate_env "fail-threshold" = "" /\
  success_rate scenario_C = json_number "80.0" /\
  failure (snd (@gate_step Node.host default_gate_env scenario_C (initial []))) =
    Some "Webhook health check failed: success rate 80.00% is below threshold 90%".
Proof.
  assert (Hthr : input default_gate_env "fail-threshold" = "") by (vm_compute; reflexivity).
  assert (Hrate : success_rate scenario_C = val (parseFloat "80.0")) by reflexivity.
  split; [exact Hthr | split; [exact Hrate |]].
  rewrite (proj2 (proj2 (@default_threshold_gate_fires_iff_unhealthy Node.host
             default_gate_env scenario_C (parseFloat "80.0") (initial []) Hthr Hrate))).
  vm_compute. reflexivity.
Defined.

(** ** The HTTP client: the successful paths *)

(** X4. The health fetch returns a snapshot exactly when the response
    arrived less than 30 seconds after the request, its status is 2xx and
    its body parsed to that snapshot; the request was then not aborted. *)
Theorem getHealthStats_returns_iff_delivered (network : request -> exchange)
    (apiUrl apiKey endpointId : string) (stats : HealthSnapshot) :
  let req := health_request apiUrl apiKey endpointId in
  (getHealthStats network apiUrl apiKey endpointId = Ok stats <->
   delivers (network req) stats) /\
  (getHealthStats network apiUrl apiKey endpointId = Ok stats ->
   aborted (fetchWithTimeout_trace network (url req) (headers req) default_timeout) = false).
Proof.
  cbv zeta.
  unfold getHealthStats, fetchWithTimeout, fetchWithTimeout_trace, await_fetch, delivers,
    arrives.
  change {| url := url (health_request apiUrl apiKey endpointId);
            headers := headers (health_request apiUrl apiKey endpointId) |}
    with (health_request apiUrl apiKey endpointId).
  unfold health_request at 1 3.
  fold (health_request apiUrl apiKey endpointId).
  set (x := network _). cbv [mbind result_bind].
  destruct (first_event default_timeout (settles_at x)) eqn:Hev; cbn [fetched aborted].
  - apply first_event_fires in Hev. split; [split |]; try discriminate.
    intros (r & [Hin _] & _). contradiction.
  - apply first_event_settles in Hev. split; [| reflexivity]. split.
    + destruct (outcome x) as [r | err]; [| discriminate].
      destruct (ok r) eqn:Hok; cbn [negb].
      * intros Hj. now exists r.
      * destruct (text r); discriminate.
    + intros (r & [_ Hout] & Hok & Hj). now rewrite Hout, Hok.
Qed.

(** A 200 after 120 ms is delivered; the same response after 45 seconds
    is not. *)
Lemma getHealthStats_returns_witness :
  delivers (server 120 200 "" (Ok scenario_A)
              (health_request "https://api.eventdock.app" "secret" "")) scenario_A /\
  getHealthStats (server 120 200 "" (Ok scenario_A))
    "https://api.eventdock.app" "secret" "" = Ok scenario_A /\
  ~ delivers (server 45000 200 "" (Ok scenario_A)
                (health_request "https://api.eventdock.app" "secret" "")) scenario_A.
Proof.
  assert (Hin : delivers (server 120 200 "" (Ok scenario_A)
                            (health_request "https://api.eventdock.app" "secret" ""))
                         scenario_A).
  { eexists. split; [split; [exists 120%N; split |] |]; try reflexivity. split; reflexivity. }
  split; [exact Hin | split].
  - exact (proj2 (proj1 (getHealthStats_returns_iff_delivered (server 120 200 "" (Ok scenario_A))
                           "https://api.eventdock.app" "secret" "" scenario_A)) Hin).
  - intros Hlate.
    apply (proj1 (getHealthStats_returns_iff_delivered (server 45000 200 "" (Ok scenario_A))
                    "https://api.eventdock.app" "secret" "" scenario_A)) in Hlate.
    vm_compute in Hlate. discriminate Hlate.
Defined.



(** ** The orchestrator: where a run stops *)

Lemma getInput_required_Ok (e : env) (key apiKey : string) :
  getInput e key true = Ok apiKey -> apiKey = input e key.
Proof.
  unfold getInput, input. destruct (true && String.eqb _ ""); [discriminate |].
  now intros [= <-].
Qed.

Lemma getHealthStats_local (net net' : request -> exchange)
    (apiUrl apiKey endpointId : string) :
  net (health_request apiUrl apiKey endpointId) =
    net' (health_request apiUrl apiKey endpointId) ->
  getHealthStats net apiUrl apiKey endpointId = getHealthStats net' apiUrl apiKey endpointId.
Proof.
  unfold getHealthStats, fetchWithTimeout, fetchWithTimeout_trace, health_request.
  now intros ->.
Qed.

Section RunStops.
Context `{Host}.

Ltac unfold_run :=
  cbv beta iota zeta delta
    [run run_body try_catch mbind action_bind mret action_ret lift
     info warning debug write_log setOutput setFailed set_comments write_summary
     outputs failure log comments summary fst snd].

(** X6. A run without a usable [api-key] input (absent or empty) is marked
    failed with the message of the missing input and does nothing else: no
    output, no log line but the error, no comment, and the network is not
    consulted, so the run ends the same on every network. *)
Theorem missing_api_key_fails_before_any_request (e : env) (s : state) :
  default "" (inputs e !! "api-key") = "" ->
  run e s =
    (Ok tt, failed_with "Action failed: Input required and not supplied: api-key" s) /\
  forall net, run (with_network e net) s = run e s.
Proof.
  intros Hkey.
  assert (Hget : getInput e "api-key" true =
                 Throw (Error "Input required and not supplied: api-key"))
    by (unfold getInput; now rewrite Hkey).
  split.
  - unfold_run. rewrite Hget. reflexivity.
  - intros net. unfold_run.
    change (getInput (with_network e net) "api-key" true)
      with (getInput e "api-key" true).
    rewrite Hget. reflexivity.
Qed.

(** X7. The run calls [fetch] for one request only, the health request
    built from its inputs: whatever [fetch] would get for any other
    request, the run ends the same.  (The calls to GitHub are made through
    octokit; they are the comment API of the environment and no part of
    this statement.) *)
Theorem run_fetches_one_request (e : env) (net : request -> exchange) (s : state) :
  net (health_request (apiUrl_of e) (input e "api-key") (input e "endpoint-id")) =
    network e (health_request (apiUrl_of e) (input e "api-key") (input e "endpoint-id")) ->
  run (with_network e net) s = run e s.
Proof.
  intros Hnet. unfold run, try_catch.
  enough (Hbody : run_body (with_network e net) s = run_body e s) by now rewrite Hbody.
  unfold run_body. cbv zeta.
  change (getInput (with_network e net)) with (getInput e).
  rewrite !getInput_optional.
  destruct (getInput e "api-key" true) as [apiKey | err] eqn:Hkey; [| reflexivity].
  apply getInput_required_Ok in Hkey. subst apiKey.
  repeat (rewrite !bind_lift_Ok; cbv beta).
  fold (apiUrl_of e). cbn [network with_network].
  rewrite (getHealthStats_local net (network e) _ _ _ Hnet).
  reflexivity.
Qed.

(** X8. When the response has no [success_rate] (absent or null) the run
    logs the status "unhealthy" and then fails on the first [toFixed] call:
    the failure carries the message of that TypeError, and no output is
    set, no comment posted and no job summary written. *)
Theorem missing_success_rate_fails_before_outputs
    (e : env) (s : state) (apiKey : string) (stats : HealthSnapshot) :
  getInput e "api-key" true = Ok apiKey ->
  fetch_of e apiKey = Ok stats ->
  success_rate stats = undefined \/ success_rate stats = null ->
  let final := snd (run e s) in
  let msg := "Action failed: Cannot read properties of " ++
             show Number_toString (success_rate stats) ++ " (reading 'toFixed')" in
  failure final = Some msg /\
  (exists l, log final = (log s ++ l ++ [(LInfo, "Status: unhealthy"); (LError, msg)])%list) /\
  outputs final = outputs s /\
  comments final = comments s /\
  summary final = summary s.
Proof.
  unfold fetch_of. intros Hkey Hfetch Hrate. cbv zeta. unfold_run.
  rewrite Hkey, !getInput_optional. cbv beta iota. fold (apiUrl_of e).
  destruct (negb (String.eqb (input e "endpoint-id") "")); rewrite Hfetch; cbv beta iota;
    destruct Hrate as [-> | ->]; cbv beta iota delta [call show];
    (split; [reflexivity | split; [| repeat split; reflexivity]]);
    rewrite <- !app_assoc;
    first [ eexists (_ :: nil); reflexivity | eexists (_ :: _ :: nil); reflexivity ].
Qed.

(** X9. When the report cannot be rendered the run has already set the
    seven outputs of lines 162 to 168: they stay set, the [report] output
    is left as it was, the failure carries the message of the renderer's
    error, and no comment is posted and no job summary written. *)
Theorem renderer_failure_keeps_seven_outputs
    (e : env) (s : state) (apiKey : string) (stats : HealthSnapshot) (r : number)
    (err : error) :
  getInput e "api-key" true = Ok apiKey ->
  fetch_of e apiKey = Ok stats ->
  success_rate stats = val r ->
  generateReport stats = Throw err ->
  let final := snd (run e s) in
  failure final = Some ("Action failed: " ++ message err) /\
  outputs final = seven_outputs stats (toFixed r 2) (outputs s) /\
  outputs final !! "report" = outputs s !! "report" /\
  outputs final !! "status" =
    Some (out_string (determineStatus (success_rate stats) (dlq_count stats))) /\
  comments final = comments s /\
  summary final = summary s.
Proof.
  unfold fetch_of. intros Hkey Hfetch Hrate Hreport. cbv zeta.
  assert (Hout : outputs (snd (run e s)) = seven_outputs stats (toFixed r 2) (outputs s) /\
                 failure (snd (run e s)) = Some ("Action failed: " ++ message err) /\
                 comments (snd (run e s)) = comments s /\
                 summary (snd (run e s)) = summary s).
  { unfold_run. rewrite Hkey, !getInput_optional. cbv beta iota. fold (apiUrl_of e).
    destruct (negb (String.eqb (input e "endpoint-id") "")); rewrite Hfetch; cbv beta iota;
      unfold seven_outputs; rewrite Hrate; cbn [call]; rewrite Hreport;
      repeat split; reflexivity. }
  destruct Hout as (Ho & Hf & Hc & Hs).
  rewrite Ho, Hf, Hc, Hs. repeat split; try reflexivity.
  - unfold seven_outputs. now rewrite !lookup_insert_ne by discriminate.
  - unfold seven_outputs. rewrite !lookup_insert_ne by discriminate.
    now rewrite lookup_insert_eq.
Qed.

End RunStops.

(** A workflow that passes no [api-key]. *)
Lemma missing_api_key_witness :
  default "" (inputs keyless_env !! "api-key") = "" /\
  failure (@final Node.host keyless_env []) =
    Some "Action failed: Input required and not supplied: api-key" /\
  outputs (@final Node.host keyless_env []) = ∅.
Proof.
  assert (Hk : default "" (inputs keyless_env !! "api-key") = "") by (vm_compute; reflexivity).
  split; [exact Hk |]. unfold final.
  rewrite (proj1 (@missing_api_key_fails_before_any_request Node.host keyless_env
                    (initial []) Hk)).
  split; reflexivity.
Defined.

(** A server that answers the health URL only, against one that answers every URL. *)
Lemma run_fetches_one_request_witness :
  health_only_server
    (health_request (apiUrl_of healthy_env) (input healthy_env "api-key")
                    (input healthy_env "endpoint-id")) =
  network healthy_env
    (health_request (apiUrl_of healthy_env) (input healthy_env "api-key")
                    (input healthy_env "endpoint-id")) /\
  health_only_server {| url := "https://example.org/"; headers := [] |} <>
  network healthy_env {| url := "https://example.org/"; headers := [] |} /\
  @run Node.host (with_network healthy_env health_only_server) (initial []) =
  @run Node.host healthy_env (initial []).
Proof.
  assert (Hn : health_only_server
                 (health_request (apiUrl_of healthy_env) (input healthy_env "api-key")
                                 (input healthy_env "endpoint-id")) =
               network healthy_env
                 (health_request (apiUrl_of healthy_env) (input healthy_env "api-key")
                                 (input healthy_env "endpoint-id")))
    by (vm_compute; reflexivity).
  split; [exact Hn | split].
  - intros E. apply (f_equal settles_at) in E. vm_compute in E. discriminate E.
  - exact (@run_fetches_one_request Node.host healthy_env health_only_server (initial []) Hn).
Defined.

(** An upstream that leaves out [success_rate], with a comment requested. *)
Lemma missing_success_rate_witness :
  getInput rateless_env "api-key" true = Ok "secret" /\
  fetch_of rateless_env "secret" = Ok without_success_rate /\
  success_rate without_success_rate = undefined /\
  failure (@final Node.host rateless_env []) =
    Some "Action failed: Cannot read properties of undefined (reading 'toFixed')" /\
  outputs (@final Node.host rateless_env []) = ∅ /\
  comments (@final Node.host rateless_env []) = [].
Proof.
  assert (Hkey : getInput rateless_env "api-key" true = Ok "secret")
    by (vm_compute; reflexivity).
  assert (Hfetch : fetch_of rateless_env "secret" = Ok without_success_rate)
    by (vm_compute; reflexivity).
  pose proof (@missing_success_rate_fails_before_outputs Node.host rateless_env (initial [])
                "secret" without_success_rate Hkey Hfetch (or_introl eq_refl)) as X.
  cbv zeta in X. destruct X as (Hf & _ & Ho & Hc & _).
  exact (conj Hkey (conj Hfetch (conj eq_refl (conj Hf (conj Ho Hc))))).
Defined.

(** An upstream that leaves out [total_events]. *)
Lemma renderer_failure_witness :
  getInput gated_incomplete_env "api-key" true = Ok "secret" /\
  fetch_of gated_incomplete_env "secret" = Ok without_total_events /\
  success_rate without_total_events = json_number "80.0" /\
  @generateReport Node.host without_total_events =
    Throw (TypeError "Cannot read properties of undefined (reading 'toLocaleString')") /\
  failure (@final Node.host gated_incomplete_env []) =
    Some "Action failed: Cannot read properties of undefined (reading 'toLocaleString')" /\
  outputs (@final Node.host gated_incomplete_env []) !! "report" = None /\
  outputs (@final Node.host gated_incomplete_env []) !! "status" =
    Some (out_string "unhealthy").
Proof.
  assert (Hkey : getInput gated_incomplete_env "api-key" true = Ok "secret")
    by (vm_compute; reflexivity).
  assert (Hfetch : fetch_of gated_incomplete_env "secret" = Ok without_total_events)
    by (vm_compute; reflexivity).
  assert (Hrate : success_rate without_total_events = val (parseFloat "80.0")) by reflexivity.
  assert (Hreport : @generateReport Node.host without_total_events =
      Throw (TypeError "Cannot read properties of undefined (reading 'toLocaleString')"))
    by (vm_compute; reflexivity).
  pose proof (@renderer_failure_keeps_seven_outputs Node.host gated_incomplete_env (initial [])
                "secret" without_total_events (parseFloat "80.0") _
                Hkey Hfetch Hrate Hreport) as X.
  cbv zeta in X. destruct X as (Hf & _ & Hr & Hs & _).
  exact (conj Hkey (conj Hfetch (conj Hrate (conj Hreport (conj Hf (conj Hr Hs)))))).
Defined.

(** ** The job summary block *)

Section JobSummary.
Context `{Host}.

(** X10. The job summary block of [run] is all or nothing and never
    throws.  When the six statistics it formats are numbers and the summary
    file can be written, it writes the eight-row table and nothing else.
    Otherwise (a statistic absent or null, [endpoints_count] included, or
    the summary not writable) it writes no summary and only logs the debug
    line "Job summary not available". *)
Theorem job_summary_all_or_nothing
    (e : env) (status : string) (stats : HealthSnapshot) (s : state) :
  let block := try_catch (write_job_summary e status stats)
                         (fun _ => debug "Job summary not available") in
  (summary_fields_are_numbers stats /\ summary_error e = None ->
   exists rows,
     block s = (Ok tt, snd (write_summary rows s)) /\
     length rows = 8%nat /\
     rows !! 1%nat = Some ("Status", toUpperCase status)) /\
  (~ (summary_fields_are_numbers stats /\ summary_error e = None) ->
   block s = (Ok tt, snd (debug "Job summary not available" s))).
Proof.
  cbv zeta. unfold summary_fields_are_numbers, is_number, write_job_summary, try_catch.
  cbv [mbind action_bind mret action_ret api_call lift call].
  split.
  - intros [([r Hr] & [t Ht] & [d Hd] & [f Hf] & [q Hq] & [c Hc]) He].
    rewrite Hr, Ht, Hd, Hf, Hq, Hc, He. eexists. split; [reflexivity |]. split; reflexivity.
  - intros Hno.
    destruct (success_rate stats); try reflexivity.
    destruct (total_events stats); try reflexivity.
    destruct (delivered_events stats); try reflexivity.
    destruct (failed_events stats); try reflexivity.
    destruct (dlq_count stats); try reflexivity.
    destruct (endpoints_count stats); try reflexivity.
    destruct (summary_error e); try reflexivity.
    exfalso. apply Hno. repeat split; eexists; reflexivity.
Qed.

End JobSummary.

(** ** The endpoint table of the report *)

Section EndpointTable.
Context `{Host}.

Lemma fold_rows (l : list EndpointStat) (r : string) :
  fold_left (fun report ep => report ++ endpoint_row ep) l r = r ++ endpoint_rows l.
Proof.
  revert r. induction l as [| ep l IH]; intros r; cbn [fold_left endpoint_rows fold_right].
  - clear. induction r as [| c r IHr]; [reflexivity |].
    change (String c r ++ "") with (String c (r ++ "")). now rewrite <- IHr.
  - rewrite IH. fold (endpoint_rows l). now rewrite string_app_assoc.
Qed.

Lemma has_endpoints_cons (ep : EndpointStat) (l : list EndpointStat) :
  has_endpoints (val (ep :: l)) = true.
Proof.
  unfold has_endpoints, js_gt, js_lt, num. cbn [ToNumber length].
  rewrite Nat2Z.inj_succ, <- Z.add_1_r.
  destruct (Z.of_nat (length l)) as [| p | p] eqn:E; [reflexivity | | lia].
  destruct (Zpos p + 1)%Z as [| q | q] eqn:E'; try lia. reflexivity.
Qed.

(** X11. The endpoint list changes the report in one place only.  For a
    snapshot whose formatted statistics are numbers there is one text
    [head] such that the report without endpoints (absent, null or empty)
    is [head] followed by the footer, and the report with a non-empty list
    is [head], then the endpoint section with one row per endpoint in
    listing order, then the footer. *)
Theorem endpoints_section_inserted (stats : HealthSnapshot) :
  formatted_fields_are_numbers stats ->
  exists head,
    (forall eps, has_endpoints eps = false ->
       generateReport (with_endpoints stats eps) = Ok (head ++ footer)) /\
    (forall l, l <> [] ->
       generateReport (with_endpoints stats (val l)) =
         Ok (head ++ endpoints_section l ++ footer)).
Proof.
  intros ([t Ht] & [d Hd] & [f Hf] & [r Hr] & [q Hq]).
  destruct stats as [te de fe pe dq sr ec eps0]. cbn in Ht, Hd, Hf, Hr, Hq. subst.
  unfold generateReport, with_endpoints.
  cbn [total_events delivered_events failed_events pending_events dlq_count success_rate
       endpoints_count endpoints].
  cbv [mbind result_bind mret result_ret call].
  match goal with
  | |- context [if _ then _ else ?h] => exists h; generalize h; intros head
  end.
  split.
  - intros eps ->. unfold footer. rewrite string_app_assoc. reflexivity.
  - intros [| ep l] Hne; [contradiction |]. rewrite has_endpoints_cons.
    rewrite fold_rows. unfold endpoints_section, footer.
    rewrite !string_app_assoc. reflexivity.
Qed.

End EndpointTable.

(** Scenario A with and without its two endpoints. *)
Lemma endpoints_section_witness :
  formatted_fields_are_numbers scenario_A /\
  exists head,
    @generateReport Node.host (with_endpoints scenario_A undefined) = Ok (head ++ footer) /\
    @generateReport Node.host scenario_A =
      Ok (head ++
          @endpoints_section Node.host
            [ {| ep_name := val "Stripe"; ep_provider := val "stripe";
                 ep_status := val "active"; ep_success_rate := json_number "99.5" |};
              {| ep_name := val "Slack"; ep_provider := val "slack";
                 ep_status := val "active"; ep_success_rate := json_number "99.5" |} ] ++
          footer).
Proof.
  assert (Hn : formatted_fields_are_numbers scenario_A)
    by (repeat split; eexists; reflexivity).
  split; [exact Hn |].
  destruct (@endpoints_section_inserted Node.host scenario_A Hn) as (head & H1 & H2).
  exists head. split.
  - exact (H1 undefined eq_refl).
  - exact (H2 _ (fun E => nil_cons (eq_sym E))).
Defined.

(** ** The structure of a run

    Whatever the inputs, the network and the GitHub API do, a run is made
    of log lines below the error level, writes to the eight documented
    outputs, upserts of the health comment and writes of the job summary,
    closed by at most one call of [core.setFailed].  The lemmas of this
    section prove it once, for every invariant of those steps. *)

Section Structure.
Context `{Host}.
Variable Inv : state -> Prop.
Hypothesis Inv_log : forall l msg s, l <> LError -> Inv s -> Inv (snd (write_log l msg s)).
Hypothesis Inv_output : forall k v s, k ∈ output_keys -> Inv s -> Inv (snd (setOutput k v s)).
Hypothesis Inv_summary : forall rows s, Inv s -> Inv (snd (write_summary rows s)).
Hypothesis Inv_comments :
  forall cs s, upsert (comments s) cs -> Inv s -> Inv (snd (set_comments cs s)).

Lemma preserves_bind {A B : Type} (m : action A) (f : A -> action B) :
  preserves Inv m -> (forall a, preserves Inv (f a)) -> preserves Inv (m ≫= f).
Proof.
  intros Hm Hf s Hs. specialize (Hm s Hs). cbv [mbind action_bind].
  destruct (m s) as [[a | err] s']; cbn [snd] in Hm; [apply Hf, Hm | exact Hm].
Qed.

Lemma preserves_try_catch {A : Type} (body : action A) (handler : error -> action A) :
  preserves Inv body -> (forall err, preserves Inv (handler err)) ->
  preserves Inv (try_catch body handler).
Proof.
  intros Hb Hh s Hs. specialize (Hb s Hs). unfold try_catch.
  destruct (body s) as [[a | err] s']; cbn [snd] in Hb; [exact Hb | apply Hh, Hb].
Qed.

Lemma preserves_lift {A : Type} (r : result A) : preserves Inv (lift r).
Proof. intros s Hs. exact Hs. Qed.

Lemma preserves_mret {A : Type} (a : A) : preserves Inv (mret a).
Proof. intros s Hs. exact Hs. Qed.

Lemma preserves_write_log (l : level) (msg : string) :
  l <> LError -> preserves Inv (write_log l msg).
Proof. intros Hl s Hs. now apply Inv_log. Qed.

Lemma preserves_setOutput (k : string) (v : out_value) :
  k ∈ output_keys -> preserves Inv (setOutput k v).
Proof. intros Hk s Hs. now apply Inv_output. Qed.

Lemma preserves_api_call (failing : option error) : preserves Inv (api_call failing).
Proof. intros s Hs. now destruct failing. Qed.

Lemma preserves_postPRComment (e : env) (token report : string) :
  includes marker report = true -> preserves Inv (postPRComment e token report).
Proof.
  intros Hmark s Hs. unfold postPRComment.
  destruct (pull_request e) as [n |]; [| now apply Inv_log].
  unfold listComments, updateComment, createComment.
  cbv [mbind action_bind mret action_ret api_call get_comments lift].
  destruct (listComments_error e); [exact Hs |].
  destruct (find_botComment (first_page (comments s))) as [c |] eqn:Hfind.
  - destruct (updateComment_error e); [exact Hs |].
    apply (Inv_log LInfo _ (snd (set_comments _ s))); [discriminate |].
    apply Inv_comments; [| exact Hs]. now apply upsert_update.
  - destruct (createComment_error e); [exact Hs |].
    apply (Inv_log LInfo _ (snd (set_comments _ s))); [discriminate |].
    apply Inv_comments; [| exact Hs]. now apply upsert_create.
Qed.

Lemma preserves_job_summary (e : env) (status : string) (stats : HealthSnapshot) :
  preserves Inv (try_catch (write_job_summary e status stats)
                         (fun _ => debug "Job summary not available")).
Proof.
  apply preserves_try_catch; [| intros _; now apply preserves_write_log].
  unfold write_job_summary.
  repeat (apply preserves_bind; [apply preserves_lift | intros ?]).
  apply preserves_bind; [apply preserves_api_call | intros _].
  intros s Hs. now apply Inv_summary.
Qed.

Lemma ends_in_bind {A B : Type} (Q : state -> Prop) (m : action A) (f : A -> action B) :
  preserves Inv m -> (forall a, ends_in Inv Q (f a)) -> ends_in Inv Q (m ≫= f).
Proof.
  intros Hm Hf s Hs. specialize (Hm s Hs). cbv [mbind action_bind].
  destruct (m s) as [[a | err] s']; cbn [snd] in Hm; [apply Hf, Hm | exact Hm].
Qed.

Lemma ends_in_bind_lift {A B : Type} (Q : state -> Prop) (r : result A)
    (f : A -> action B) :
  (forall a, r = Ok a -> ends_in Inv Q (f a)) -> ends_in Inv Q (lift r ≫= f).
Proof.
  intros Hf s Hs. cbv [mbind action_bind lift].
  destruct r as [a | err]; [now apply Hf | exact Hs].
Qed.

Ltac in_keys := unfold output_keys; repeat first [apply list_elem_of_here | apply list_elem_of_further].

Ltac keeps m :=
  lazymatch m with
  | mret _ => apply preserves_mret
  | info _ => apply preserves_write_log; discriminate
  | warning _ => apply preserves_write_log; discriminate
  | setOutput _ _ => apply preserves_setOutput; in_keys
  | lift _ => apply preserves_lift
  | postPRComment _ _ _ => apply preserves_postPRComment; assumption
  | try_catch _ _ => apply preserves_job_summary
  end.

Ltac walk :=
  repeat
    lazymatch goal with
    | |- ends_in _ _ (mbind _ (lift (generateReport _))) =>
        apply ends_in_bind_lift;
        let Hr := fresh "Hreport" in intros ? Hr; apply generateReport_marker in Hr
    | |- ends_in _ _ (mbind _ (if ?b then _ else _)) => destruct b
    | |- ends_in _ _ (mbind _ ?m) => apply ends_in_bind; [keeps m | intros ?]
    end.

(** The [try] block of [run]: it throws with the invariant kept, or returns
    with the invariant kept up to one closing [core.setFailed]. *)
Lemma run_body_structure (e : env) :
  ends_in Inv (fun s' => Inv s' \/
                       exists s'' msg, Inv s'' /\ failure_message msg /\ s' = failed_with msg s'')
          (run_body e).
Proof.
  unfold run_body. cbv zeta. walk;
    match goal with |- ends_in _ _ (if ?b then _ else _) => destruct b end.
  all: try (intros s Hs; now left).
  all: apply ends_in_bind; [apply preserves_lift | intros rate];
       intros s Hs; right; eexists s, _; (split; [exact Hs | split; [| reflexivity]]);
       right; eexists _, _; reflexivity.
Qed.

(** A run never throws, and ends in a state of the invariant, or in one
    followed by a single [core.setFailed]. *)
Lemma run_structure (e : env) (s : state) :
  Inv s ->
  fst (run e s) = Ok tt /\
  exists s', Inv s' /\
    (snd (run e s) = s' \/
     exists msg, failure_message msg /\ snd (run e s) = failed_with msg s').
Proof.
  intros Hs. pose proof (run_body_structure e s Hs) as Hb. unfold run, try_catch.
  destruct (run_body e s) as [[[] | err] s1].
  - split; [reflexivity |]. destruct Hb as [Hb | (s'' & msg & Hi & Hm & ->)].
    + exists s1. split; [exact Hb | now left].
    + exists s''. split; [exact Hi | right]. now exists msg.
  - split; [reflexivity |]. exists s1. split; [exact Hb | right].
    eexists. split; [left; eexists; reflexivity | reflexivity].
Qed.

End Structure.

Section RunInvariants.
Context `{Host}.

(** X12. A run never throws and calls [core.setFailed] at most once, as
    its last step: either the failure mark is left as it was and every line
    the run logged is below the error level, or the mark is set to a message
    that is the last line of the log and its only error line, and that
    message is "Action failed: ..." or the message of the threshold gate. *)
Theorem run_fails_at_most_once (e : env) (s : state) :
  fst (run e s) = Ok tt /\
  exists entries, quiet entries /\
    ((failure (snd (run e s)) = failure s /\
      log (snd (run e s)) = (log s ++ entries)%list) \/
     (exists msg, failure_message msg /\
        failure (snd (run e s)) = Some msg /\
        log (snd (run e s)) = (log s ++ entries ++ [(LError, msg)])%list)).
Proof.
  pose (Inv := fun s' : state =>
               failure s' = failure s /\
               exists l, quiet l /\ log s' = (log s ++ l)%list).
  destruct (run_structure Inv) with (e := e) (s := s)
    as (Hok & s' & [Hf (l & Hq & Hl)] & Hend).
  - intros lv msg s0 Hlv [Hf (l & Hq & Hl)]. split; [exact Hf |].
    exists (l ++ [(lv, msg)])%list. split.
    + apply Forall_app. split; [exact Hq | now repeat constructor].
    + unfold write_log. cbn [snd log]. now rewrite Hl, <- app_assoc.
  - intros k v s0 _ Hs. exact Hs.
  - intros rows s0 Hs. exact Hs.
  - intros cs s0 _ Hs. exact Hs.
  - split; [reflexivity |]. exists []. split; [constructor | now rewrite app_nil_r].
  - split; [exact Hok |]. exists l. split; [exact Hq |].
    destruct Hend as [-> | (msg & Hm & ->)].
    + left. now split.
    + right. exists msg. split; [exact Hm |]. split; [reflexivity |].
      unfold failed_with. cbn [log]. now rewrite Hl, <- app_assoc.
Qed.

(** X13. A run writes no output but the eight documented ones: every other
    key of the outputs is after the run as it was before. *)
Theorem run_writes_only_documented_outputs (e : env) (s : state) (k : string) :
  k ∉ output_keys ->
  outputs (snd (run e s)) !! k = outputs s !! k.
Proof.
  intros Hk.
  pose (Inv := fun s' : state => outputs s' !! k = outputs s !! k).
  destruct (run_structure Inv) with (e := e) (s := s) as (_ & s' & Hs' & Hend).
  - intros lv msg s0 _ Hs. exact Hs.
  - intros k' v s0 Hk' Hs. unfold Inv in Hs |- *. unfold setOutput. cbn [snd outputs].
    rewrite lookup_insert_ne; [exact Hs |]. intros ->. contradiction.
  - intros rows s0 Hs. exact Hs.
  - intros cs s0 _ Hs. exact Hs.
  - reflexivity.
  - destruct Hend as [-> | (msg & _ & ->)]; exact Hs'.
Qed.

End RunInvariants.

(** A key the action does not document, after a healthy run. *)
Lemma run_writes_only_documented_outputs_witness :
  ("result" ∉ output_keys) /\
  outputs (@final Node.host healthy_env []) !! "result" = None.
Proof.
  assert (Hk : "result" ∉ output_keys) by compute_done.
  split; [exact Hk |].
  exact (@run_writes_only_documented_outputs Node.host healthy_env (initial []) "result" Hk).
Defined.

(** ** The comments of reviewers *)

Lemma kept_refl (cs : list comment) : kept cs cs.
Proof. intros i c Hi _. exact Hi. Qed.

Lemma kept_trans (a b c : list comment) : kept a b -> kept b c -> kept a c.
Proof. intros Hab Hbc i x Hi Hx. apply Hbc; [now apply Hab | exact Hx]. Qed.

Lemma upsert_keeps (cs cs' : list comment) :
  NoDup (map id cs) -> upsert cs cs' -> NoDup (map id cs') /\ kept cs cs'.
Proof.
  intros Hnd [c report Hfind Hmark | report Hfind Hmark].
  - split; [now rewrite update_body_ids |].
    destruct (first_page_split cs c Hfind) as (pre & post & -> & _ & Hc & _).
    rewrite (update_in_place pre post c report Hnd).
    intros i x Hi Hx. apply lookup_app_Some in Hi as [Hi | [Hlen Hi]].
    + now apply lookup_app_l_Some.
    + apply lookup_app_Some. right. split; [exact Hlen |].
      destruct (i - length pre)%nat as [| j]; [| exact Hi].
      cbn in Hi. injection Hi as ->. congruence.
  - split; [now apply fresh_id_NoDup |].
    intros i x Hi _. now apply lookup_app_l_Some.
Qed.

Section ReviewerComments.
Context `{Host}.

Lemma run_keeps (e : env) (s : state) :
  NoDup (map id (comments s)) ->
  NoDup (map id (comments (snd (run e s)))) /\
  kept (comments s) (comments (snd (run e s))).
Proof.
  intros Hnd.
  pose (Inv := fun s' : state =>
               NoDup (map id (comments s')) /\ kept (comments s) (comments s')).
  destruct (run_structure Inv) with (e := e) (s := s) as (_ & s' & Hs' & Hend).
  - intros lv msg s0 _ Hs. exact Hs.
  - intros k v s0 _ Hs. exact Hs.
  - intros rows s0 Hs. exact Hs.
  - intros cs s0 Hup [Hnd0 Hk0]. destruct (upsert_keeps _ _ Hnd0 Hup) as [Hnd1 Hk1].
    split; [exact Hnd1 | exact (kept_trans _ _ _ Hk0 Hk1)].
  - split; [exact Hnd | apply kept_refl].
  - destruct Hend as [-> | (msg & _ & ->)]; exact Hs'.
Qed.

(** X14. No sequence of runs edits, moves or deletes a comment that does
    not hold the marker: with distinct comment ids, such a comment is found
    unchanged at the same position after the runs, whatever their inputs,
    the network and the comment API do. *)
Theorem other_comments_survive_runs (es : list env) (s : state) (i : nat) (c : comment) :
  NoDup (map id (comments s)) ->
  comments s !! i = Some c ->
  includes marker (body c) = false ->
  comments (runs es s) !! i = Some c.
Proof.
  intros Hnd Hi Hc.
  enough (Hall : NoDup (map id (comments (runs es s))) /\
                 kept (comments s) (comments (runs es s)))
    by exact (proj2 Hall i c Hi Hc).
  clear i c Hi Hc. revert s Hnd.
  induction es as [| e es IH]; intros s Hnd; cbn [runs fold_left].
  - split; [exact Hnd | apply kept_refl].
  - destruct (run_keeps e (initial (comments s)) Hnd) as [Hnd1 Hk1].
    destruct (IH (snd (run e (initial (comments s)))) Hnd1) as [Hnd2 Hk2].
    split; [exact Hnd2 | exact (kept_trans _ _ _ Hk1 Hk2)].
Qed.

End ReviewerComments.

(** Three runs, the second with a rejected token, on a pull request with two reviewer comments around the health comment. *)
Lemma other_comments_survive_runs_witness :
  NoDup (map id busy_comments) /\
  busy_comments !! 2%nat = Some {| id := 15; body := "Merging tomorrow." |} /\
  includes marker "Merging tomorrow." = false /\
  comments (@runs Node.host [commenting_env; rejected_token_env; commenting_env]
              (initial busy_comments)) !! 2%nat =
    Some {| id := 15; body := "Merging tomorrow." |}.
Proof.
  assert (Hnd : NoDup (map id busy_comments)) by compute_done.
  assert (Hm : includes marker "Merging tomorrow." = false) by (vm_compute; reflexivity).
  split; [exact Hnd | split; [reflexivity | split; [exact Hm |]]].
  exact (@other_comments_survive_runs Node.host
           [commenting_env; rejected_token_env; commenting_env]
           (initial busy_comments) 2 _ Hnd eq_refl Hm).
Defined.

(** ** Publishing again *)

Lemma postPRComment_published (e : env) (token report : string) (s : state) :
  comments (snd (postPRComment e token report s)) = published e report (comments s).
Proof.
  unfold postPRComment, published.
  destruct (pull_request e) as [n |]; [| reflexivity].
  unfold listComments, updateComment, createComment.
  cbv [mbind action_bind mret action_ret api_call get_comments lift].
  destruct (listComments_error e); [reflexivity |].
  destruct (find_botComment (first_page (comments s))).
  - destruct (updateComment_error e); reflexivity.
  - destruct (createComment_error e); reflexivity.
Qed.

Lemma published_update (e : env) (report : string) (pre post : list comment) (c : comment) :
  pull_request e <> None -> listComments_error e = None -> updateComment_error e = None ->
  Forall (fun x => is_health_comment x = false) pre ->
  is_health_comment c = true ->
  (length pre < per_page)%nat ->
  NoDup (map id (pre ++ c :: post)) ->
  published e report (pre ++ c :: post) =
    (pre ++ {| id := id c; body := report |} :: post)%list.
Proof.
  intros Hpr Hl Hu Hpre Hc Hlen Hnd. unfold published.
  destruct (pull_request e); [| contradiction]. rewrite Hl, Hu.
  rewrite (first_page_first pre post c Hpre Hc Hlen).
  now apply update_in_place.
Qed.

Lemma published_shape (e : env) (report : string) (cs : list comment) :
  includes marker report = true ->
  NoDup (map id cs) ->
  first_page_suffices cs ->
  published e report cs = cs \/
  exists pre post n,
    published e report cs = (pre ++ {| id := n; body := report |} :: post)%list /\
    Forall (fun x => is_health_comment x = false) pre /\
    (length pre < per_page)%nat /\
    NoDup (map id (pre ++ {| id := n; body := report |} :: post)) /\
    pull_request e <> None /\ listComments_error e = None /\
    (updateComment_error e = None ->
     forall r, published e r cs = (pre ++ {| id := n; body := r |} :: post)%list).
Proof.
  intros Hmark Hnd Hfp. unfold published.
  destruct (pull_request e) as [n |] eqn:Hpr; [| now left].
  destruct (listComments_error e) eqn:Hl; [now left |].
  destruct (find_botComment (first_page cs)) as [c |] eqn:Hfind.
  - destruct (updateComment_error e) eqn:Hu; [now left | right].
    destruct (first_page_split cs c Hfind) as (pre & post & -> & Hlen & Hc & Hpre).
    exists pre, post, (id c). rewrite (update_in_place pre post c report Hnd).
    split; [reflexivity |]. split; [exact Hpre |]. split; [exact Hlen |]. split.
    + rewrite map_app in Hnd |- *. exact Hnd.
    + split; [discriminate |]. split; [reflexivity |].
      intros _ r. now apply update_in_place.
  - destruct (createComment_error e) eqn:Hc; [now left | right].
    specialize (Hfp Hfind). rewrite (first_page_all cs Hfp) in Hfind.
    exists cs, [], (fresh_id cs). split; [reflexivity |].
    split; [now apply find_botComment_None |]. split; [exact Hfp |].
    split; [now apply fresh_id_NoDup |].
    split; [discriminate |]. split; [reflexivity |].
    intros _ r. reflexivity.
Qed.

Lemma published_idempotent (e : env) (report : string) (cs : list comment) :
  includes marker report = true ->
  NoDup (map id cs) ->
  first_page_suffices cs ->
  published e report (published e report cs) = published e report cs.
Proof.
  intros Hmark Hnd Hfp.
  destruct (published_shape e report cs Hmark Hnd Hfp)
    as [E | (pre & post & n & -> & Hpre & Hlen & Hnd' & Hpr & Hl & _)]; [now rewrite !E |].
  destruct (updateComment_error e) eqn:Hu.
  - unfold published. destruct (pull_request e); [| contradiction]. rewrite Hl, Hu.
    now rewrite (first_page_first pre post {| id := n; body := report |} Hpre Hmark Hlen).
  - exact (published_update e report pre post {| id := n; body := report |}
             Hpr Hl Hu Hpre Hmark Hlen Hnd').
Qed.

(** X15. The last report wins while the first page of the listing is
    enough (it shows a health comment, or the pull request has fewer than
    30 comments).  When updating a comment works, publishing a report after
    an earlier report (one that holds the marker, as every rendered report
    does) then leaves the comments exactly as publishing it alone would:
    the earlier report leaves no trace. *)
Theorem publisher_last_write_wins
    (e : env) (token1 report1 token2 report2 : string) (s : state) :
  includes marker report1 = true ->
  NoDup (map id (comments s)) ->
  first_page_suffices (comments s) ->
  updateComment_error e = None ->
  comments (snd (postPRComment e token2 report2
                   (snd (postPRComment e token1 report1 s)))) =
  comments (snd (postPRComment e token2 report2 s)).
Proof.
  intros Hmark Hnd Hfp Hu. rewrite !postPRComment_published.
  destruct (published_shape e report1 (comments s) Hmark Hnd Hfp)
    as [-> | (pre & post & n & -> & Hpre & Hlen & Hnd' & Hpr & Hl & Hany)]; [reflexivity |].
  rewrite (Hany Hu report2).
  exact (published_update e report2 pre post {| id := n; body := report1 |}
           Hpr Hl Hu Hpre Hmark Hlen Hnd').
Qed.

Ltac open_run :=
  cbv beta iota zeta delta
    [run run_body try_catch mbind action_bind mret action_ret lift
     info warning debug write_log setOutput setFailed set_comments write_summary
     outputs failure log comments summary fst snd].

Section Rerun.
Context `{Host}.

(** What a run does to the comments is fixed by its environment: nothing,
    or publishing one report that holds the marker. *)
Lemma run_comments_plan (e : env) :
  exists plan : option string,
    (forall r, plan = Some r -> includes marker r = true) /\
    forall s, comments (snd (run e s)) =
              match plan with
              | Some r => published e r (comments s)
              | None => comments s
              end.
Proof.
  destruct (getInput e "api-key" true) as [apiKey | err] eqn:Hkey.
  2: { exists None. split; [discriminate |]. intros s. open_run. now rewrite Hkey. }
  destruct (fetch_of e apiKey) as [stats | err] eqn:Hfetch.
  2: { exists None. split; [discriminate |]. intros s. unfold fetch_of in Hfetch.
       open_run. rewrite Hkey, !getInput_optional. cbv beta iota. fold (apiUrl_of e).
       destruct (negb (String.eqb (input e "endpoint-id") "")); now rewrite Hfetch. }
  destruct (success_rate stats) as [| | r] eqn:Hrate.
  1, 2: exists None; (split; [discriminate |]); intros s; unfold fetch_of in Hfetch;
        open_run; rewrite Hkey, !getInput_optional; cbv beta iota; fold (apiUrl_of e);
        destruct (negb (String.eqb (input e "endpoint-id") "")); rewrite Hfetch;
        cbv beta iota; rewrite Hrate; reflexivity.
  destruct (generateReport stats) as [report | err] eqn:Hreport.
  2: { exists None. split; [discriminate |]. intros s. unfold fetch_of in Hfetch.
       open_run. rewrite Hkey, !getInput_optional. cbv beta iota. fold (apiUrl_of e).
       destruct (negb (String.eqb (input e "endpoint-id") "")); rewrite Hfetch;
         cbv beta iota; rewrite Hrate; cbn [call]; rewrite Hreport; reflexivity. }
  exists (if String.eqb (input e "post-comment") "true" &&
             negb (String.eqb (input e "github-token") "")
          then Some report else None).
  split.
  { intros r0. destruct (_ && _); [| discriminate].
    intros [= <-]. exact (generateReport_marker stats report Hreport). }
  intros s.
  destruct (run_reaches_outputs e s apiKey stats r report Hkey Hfetch Hrate Hreport)
    as (s1 & Hrun & _ & _ & Hc & _).
  rewrite Hrun. pose proof (after_outputs_effect e stats r report s1 Hrate) as Heff.
  cbv zeta in Heff. destruct Heff as [_ Heff].
  match goal with
  | |- comments ?final = _ =>
      assert (Hcom : comments final = comments (snd (publish_step e report s1)))
        by (destruct (fst (publish_step e report s1));
            [exact (proj2 Heff) | exact (proj1 (proj2 Heff))])
  end.
  rewrite Hcom. unfold publish_step.
  destruct (String.eqb (input e "post-comment") "true"); cbn [andb]; [| exact Hc].
  destruct (String.eqb (input e "github-token") ""); cbn [negb]; [exact Hc |].
  now rewrite postPRComment_published, Hc.
Qed.

(** X16. Running the step again changes nothing on the pull request while
    the first page of the listing is enough (it shows a health comment, or
    the pull request has fewer than 30 comments): with distinct comment
    ids, the comments after two runs in the same environment are then the
    comments after one, whatever the inputs, the network and the comment
    API do. *)
Theorem rerun_leaves_comments_unchanged (e : env) (s : state) :
  NoDup (map id (comments s)) ->
  first_page_suffices (comments s) ->
  comments (runs [e; e] s) = comments (runs [e] s).
Proof.
  intros Hnd Hfp. cbn [runs fold_left].
  destruct (run_comments_plan e) as (plan & Hmark & Hplan).
  rewrite !Hplan. cbn [initial comments].
  destruct plan as [r |]; [| reflexivity].
  apply published_idempotent; [now apply Hmark | exact Hnd | exact Hfp].
Qed.

End Rerun.

(** Two reports published in a row on a pull request with one reviewer comment. *)
Lemma publisher_last_write_wins_witness :
  includes marker "## :x: EventDock Webhook Health Report" = true /\
  NoDup (map id (comments (initial [ {| id := 1; body := "LGTM" |} ]))) /\
  first_page_suffices (comments (initial [ {| id := 1; body := "LGTM" |} ])) /\
  updateComment_error commenting_env = None /\
  comments (snd (postPRComment commenting_env "ghs_valid" "second"
                   (snd (postPRComment commenting_env "ghs_valid"
                           "## :x: EventDock Webhook Health Report"
                           (initial [ {| id := 1; body := "LGTM" |} ]))))) =
    [ {| id := 1; body := "LGTM" |}; {| id := 2; body := "second" |} ].
Proof.
  assert (Hm : includes marker "## :x: EventDock Webhook Health Report" = true)
    by (vm_compute; reflexivity).
  assert (Hnd1 : NoDup (map id (comments (initial [ {| id := 1; body := "LGTM" |} ]))))
    by compute_done.
  assert (Hfp : first_page_suffices (comments (initial [ {| id := 1; body := "LGTM" |} ])))
    by (intros _; unfold per_page; simpl; lia).
  split; [exact Hm | split; [exact Hnd1 | split; [exact Hfp | split; [reflexivity |]]]].
  rewrite (publisher_last_write_wins commenting_env "ghs_valid" _ "ghs_valid" "second"
             (initial [ {| id := 1; body := "LGTM" |} ]) Hm Hnd1 Hfp eq_refl).
  vm_compute. reflexivity.
Defined.

(** The step run twice on a pull request that already has a health comment. *)
Lemma rerun_leaves_comments_unchanged_witness :
  NoDup (map id (comments (initial busy_comments))) /\
  first_page_suffices (comments (initial busy_comments)) /\
  comments (@runs Node.host [commenting_env; commenting_env] (initial busy_comments)) =
  comments (@runs Node.host [commenting_env] (initial busy_comments)).
Proof.
  assert (Hnd : NoDup (map id (comments (initial busy_comments)))) by compute_done.
  assert (Hfp : first_page_suffices (comments (initial busy_comments)))
    by (intros _; unfold per_page; simpl; lia).
  split; [exact Hnd | split; [exact Hfp |]].
  exact (@rerun_leaves_comments_unchanged Node.host commenting_env (initial busy_comments)
           Hnd Hfp).
Defined.

(** ** The outputs, stage by stage *)

Section OutputStages.
Context `{Host}.

(** X17. The outputs are written in two stages and a run that is not
    marked failed has written them all.  After a run either no output was
    written and the run failed with "Action failed: ..."; or the seven
    statistics outputs were written from one snapshot, the renderer threw
    and the run failed with the renderer's message; or all eight outputs
    were written from one snapshot and its report. *)
Theorem outputs_are_set_in_stages (e : env) (s : state) :
  let final := snd (run e s) in
  ((outputs final = outputs s /\
    exists m, failure final = Some ("Action failed: " ++ m)) \/
   (exists stats r err,
      success_rate stats = val r /\ generateReport stats = Throw err /\
      outputs final = seven_outputs stats (toFixed r 2) (outputs s) /\
      failure final = Some ("Action failed: " ++ message err)) \/
   (exists stats r report,
      success_rate stats = val r /\ generateReport stats = Ok report /\
      outputs final = all_outputs stats (toFixed r 2) report (outputs s))) /\
  (failure final = None ->
   exists stats r report,
     fetch_of e (input e "api-key") = Ok stats /\
     success_rate stats = val r /\ generateReport stats = Ok report /\
     outputs final = all_outputs stats (toFixed r 2) report (outputs s)).
Proof.
  cbv zeta.
  destruct (getInput e "api-key" true) as [apiKey | err] eqn:Hkey.
  2: { assert (E : snd (run e s) = failed_with ("Action failed: " ++ message err) s)
         by (open_run; now rewrite Hkey).
       rewrite E. split; [left; split; [reflexivity | now eexists] | discriminate]. }
  pose proof (getInput_required_Ok e _ _ Hkey) as Hk. rewrite <- Hk.
  destruct (fetch_of e apiKey) as [stats | err] eqn:Hfetch.
  2: { assert (E : outputs (snd (run e s)) = outputs s /\
                   failure (snd (run e s)) = Some ("Action failed: " ++ message err)).
       { unfold fetch_of in Hfetch. open_run. rewrite Hkey, !getInput_optional.
         cbv beta iota. fold (apiUrl_of e).
         destruct (negb (String.eqb (input e "endpoint-id") "")); rewrite Hfetch;
           split; reflexivity. }
       destruct E as [Eo Ef]. rewrite Eo, Ef.
       split; [left; split; [reflexivity | now eexists] | discriminate]. }
  destruct (success_rate stats) as [| | r] eqn:Hrate.
  1, 2: assert (E : outputs (snd (run e s)) = outputs s /\
                    exists m, failure (snd (run e s)) = Some ("Action failed: " ++ m))
          by (unfold fetch_of in Hfetch; open_run; rewrite Hkey, !getInput_optional;
              cbv beta iota; fold (apiUrl_of e);
              destruct (negb (String.eqb (input e "endpoint-id") "")); rewrite Hfetch;
              cbv beta iota; rewrite Hrate; (split; [reflexivity | now eexists]));
        destruct E as [Eo [m Ef]]; rewrite Eo, Ef;
        (split; [left; split; [reflexivity | now eexists] | discriminate]).
  destruct (generateReport stats) as [report | err] eqn:Hreport.
  2: { assert (E : outputs (snd (run e s)) = seven_outputs stats (toFixed r 2) (outputs s) /\
                   failure (snd (run e s)) = Some ("Action failed: " ++ message err)).
       { unfold fetch_of in Hfetch. open_run. rewrite Hkey, !getInput_optional.
         cbv beta iota. fold (apiUrl_of e).
         destruct (negb (String.eqb (input e "endpoint-id") "")); rewrite Hfetch;
           cbv beta iota; unfold seven_outputs; rewrite Hrate; cbn [call];
           rewrite Hreport; split; reflexivity. }
       destruct E as [Eo Ef]. rewrite Eo, Ef.
       split; [right; left; now exists stats, r, err | discriminate]. }
  destruct (run_reaches_outputs e s apiKey stats r report Hkey Hfetch Hrate Hreport)
    as (s1 & Hrun & Ho & _).
  pose proof (after_outputs_effect e stats r report s1 Hrate) as Heff.
  cbv zeta in Heff. destruct Heff as [Heff _]. rewrite <- Hrun, Ho in Heff.
  split; [right; right |]; [| intros _]; now exists stats, r, report.
Qed.

End OutputStages.

(** ** How the run reads its switches and its threshold *)

Section Switches.
Context `{Host}.

(** X18. The two switches are on only when they read exactly "true" (after
    trimming): with any other value of [fail-on-unhealthy] or of
    [post-comment], the run is the run with that switch set to "false". *)
Theorem switch_needs_exact_true (e : env) (s : state) (switch : string) :
  switch = "fail-on-unhealthy" \/ switch = "post-comment" ->
  input e switch <> "true" ->
  run e s = run (with_input e switch "false") s.
Proof.
  intros Hswitch Hoff. unfold run, try_catch.
  enough (Hbody : run_body e s = run_body (with_input e switch "false") s)
    by now rewrite Hbody.
  unfold run_body. cbv zeta. rewrite !getInput_optional.
  destruct Hswitch; subst switch;
    rewrite (getInput_with_input_ne e _ _ "api-key") by discriminate;
    rewrite input_with_input_eq;
    rewrite !(input_with_input_ne e _ "false") by discriminate;
    change (trim "false") with "false";
    apply String.eqb_neq in Hoff;
    apply bind_ext; intros apiKey s1;
    repeat (rewrite !bind_lift_Ok; cbv beta);
    change (String.eqb "false" "true") with false;
    rewrite Hoff; reflexivity.
Qed.

(** X19. The run reads [fail-threshold] through [parseFloat] only: giving
    the input any text that parses to the threshold in force (trailing
    garbage and surrounding blanks included, or no text at all when the
    threshold is the default 90) leaves the run as it is. *)
Theorem threshold_read_through_parseFloat (e : env) (v : string) (s : state) :
  parseFloat (if String.eqb (trim v) "" then "90" else trim v) = failThreshold_of e ->
  run (with_input e "fail-threshold" v) s = run e s.
Proof.
  intros Hsame. unfold run, try_catch.
  enough (Hbody : run_body (with_input e "fail-threshold" v) s = run_body e s)
    by now rewrite Hbody.
  unfold run_body. cbv zeta. rewrite !getInput_optional.
  rewrite (getInput_with_input_ne e _ _ "api-key") by discriminate.
  rewrite input_with_input_eq.
  rewrite !(input_with_input_ne e "fail-threshold") by discriminate.
  apply bind_ext; intros apiKey s1.
  repeat (rewrite !bind_lift_Ok; cbv beta).
  fold (failThreshold_of e). rewrite Hsame. reflexivity.
Qed.

End Switches.

(** Scenario C with [fail-on-unhealthy] written in capitals. *)
Lemma switch_needs_exact_true_witness :
  input shouting_env "fail-on-unhealthy" <> "true" /\
  @run Node.host shouting_env (initial []) =
  @run Node.host (with_input shouting_env "fail-on-unhealthy" "false") (initial []).
Proof.
  assert (Hoff : input shouting_env "fail-on-unhealthy" <> "true")
    by (vm_compute; discriminate).
  split; [exact Hoff |].
  exact (@switch_needs_exact_true Node.host shouting_env (initial []) "fail-on-unhealthy"
           (or_introl eq_refl) Hoff).
Defined.

(** Scenario C with the threshold written as " 90.0 percent". *)
Lemma threshold_read_through_parseFloat_witness :
  parseFloat (if String.eqb (trim " 90.0 percent") "" then "90" else trim " 90.0 percent") =
    failThreshold_of gated_env /\
  @run Node.host (with_input gated_env "fail-threshold" " 90.0 percent") (initial []) =
  @run Node.host gated_env (initial []).
Proof.
  assert (Hsame : parseFloat (if String.eqb (trim " 90.0 percent") "" then "90"
                              else trim " 90.0 percent") = failThreshold_of gated_env)
    by (vm_compute; reflexivity).
  split; [exact Hsame |].
  exact (@threshold_read_through_parseFloat Node.host gated_env " 90.0 percent"
           (initial []) Hsame).
Defined.
